(** * syftr: the remote retriever and the Ray initialiser

    A shallow embedding of [syftr/retrievers/remote.py] and
    [syftr/ray/utils.py].  Python values are an inductive type, Python
    exceptions are carried by an error result, and the logger, the process
    environment and the Ray client are explicit state. *)

From Stdlib Require Import ZArith String Ascii List Lia.
From Stdlib Require Import DecimalString DecimalNat DecimalZ.
From Stdlib Require Import PrimFloat SpecFloat FloatOps.
From stdpp Require Import gmap strings list.

Set Warnings "-register-all,-abstract-large-number".

(** ** Python values, exceptions and the effect monad *)

Module Py.

(** The objects [response.json()] can return, and the literals of the
    source.  A [dict] keeps its items in insertion order; keys are [str]. *)
Inductive pyval : Type :=
| PyNone
| PyBool (b : bool)
| PyInt (z : Z)
| PyFloat (f : float)
| PyStr (s : string)
| PyList (l : list pyval)
| PyDict (d : list (string * pyval)).

Definition type_name (v : pyval) : string :=
  match v with
  | PyNone => "NoneType"
  | PyBool _ => "bool"
  | PyInt _ => "int"
  | PyFloat _ => "float"
  | PyStr _ => "str"
  | PyList _ => "list"
  | PyDict _ => "dict"
  end.

(** Exception classes that the modelled code can meet.  Every one of them
    derives from [Exception]; the first five derive from
    [requests.exceptions.RequestException]. *)
Inductive exn_class : Type :=
| ConnectionError
| Timeout
| HTTPError
| JSONDecodeError
| OtherRequestException
| AttributeError
| TypeError
| ValueError
| ValidationError
| OSError
| OtherException.

Record exn : Type := mkExn { exn_cls : exn_class; exn_msg : string }.

Definition is_RequestException (e : exn) : bool :=
  match exn_cls e with
  | ConnectionError | Timeout | HTTPError | JSONDecodeError
  | OtherRequestException => true
  | _ => false
  end.

Inductive result (A : Type) : Type :=
| Ok (a : A)
| Raise (e : exn).
Arguments Ok {A} a.
Arguments Raise {A} e.

Global Instance result_ret : MRet result := fun A a => Ok a.
Global Instance result_bind : MBind result := fun A B k m =>
  match m with
  | Ok a => k a
  | Raise e => Raise e
  end.

(** State and exceptions: a raise keeps the state reached so far. *)
Definition M (S A : Type) : Type := S -> result A * S.

Global Instance M_ret S : MRet (M S) := fun A a s => (Ok a, s).
Global Instance M_bind S : MBind (M S) := fun A B k m s =>
  match m s with
  | (Ok a, s') => k a s'
  | (Raise e, s') => (Raise e, s')
  end.

(** A computation that cannot touch the state. *)
Definition lift {S A} (r : result A) : M S A := fun s => (r, s).

(** [try: m except e: h e] *)
Definition try_except {S A} (m : M S A) (h : exn -> M S A) : M S A :=
  fun s =>
    match m s with
    | (Ok a, s') => (Ok a, s')
    | (Raise e, s') => h e s'
    end.

(** [d.get(key, default)] on the items of a dict. *)
Fixpoint dict_lookup (d : list (string * pyval)) (key : string) : option pyval :=
  match d with
  | [] => None
  | (k, v) :: rest => if String.eqb k key then Some v else dict_lookup rest key
  end.

(** [obj.get(key, default)]: only a dict has the attribute. *)
Definition py_get (obj : pyval) (key : string) (default : pyval) : result pyval :=
  match obj with
  | PyDict d =>
      match dict_lookup d key with
      | Some v => Ok v
      | None => Ok default
      end
  | _ => Raise (mkExn AttributeError
                  ("'" +:+ type_name obj +:+ "' object has no attribute 'get'"))
  end.

(** [len(obj)] *)
Definition py_len (obj : pyval) : result nat :=
  match obj with
  | PyList l => Ok (length l)
  | PyDict d => Ok (length d)
  | PyStr s => Ok (String.length s)
  | _ => Raise (mkExn TypeError
                  ("object of type '" +:+ type_name obj +:+ "' has no len()"))
  end.

Fixpoint chars (s : string) : list pyval :=
  match s with
  | EmptyString => []
  | String c r => PyStr (String c EmptyString) :: chars r
  end.

(** The items [for x in obj] visits: the elements of a list, the keys of a
    dict, the characters of a str. *)
Definition py_iter (obj : pyval) : result (list pyval) :=
  match obj with
  | PyList l => Ok l
  | PyDict d => Ok (map (fun kv => PyStr (fst kv)) d)
  | PyStr s => Ok (chars s)
  | _ => Raise (mkExn TypeError
                  ("'" +:+ type_name obj +:+ "' object is not iterable"))
  end.

(** [str(n)] for an int. *)
Definition str_of_nat (n : nat) : string := NilZero.string_of_uint (Nat.to_uint n).
Definition str_of_Z (z : Z) : string := NilZero.string_of_int (Z.to_int z).

(** [float(z)] for an int: the nearest double, ties to even; an int beyond
    the range of the doubles raises OverflowError ([None]). *)
Definition float_of_int (z : Z) : option float :=
  match binary_normalize prec emax z 0 false with
  | S754_infinity _ => None
  | sf => Some (SF2Prim sf)
  end.

(** [s.rstrip(c)] for a one-character set. *)
Fixpoint rstrip (c : ascii) (s : string) : string :=
  match s with
  | EmptyString => EmptyString
  | String a r =>
      match rstrip c r with
      | EmptyString => if Ascii.eqb a c then EmptyString else String a EmptyString
      | r' => String a r'
      end
  end.

(** [c in s] *)
Fixpoint occurs (c : ascii) (s : string) : bool :=
  match s with
  | EmptyString => false
  | String a r => Ascii.eqb a c || occurs c r
  end.

(** [s[:n]] *)
Definition str_prefix (n : nat) (s : string) : string := String.substring 0 n s.

(** The logger. *)
Inductive log_level : Type := DEBUG | INFO | WARNING | ERROR.
Record log_record : Type := mkLog { log_lvl : log_level; log_text : string }.

End Py.

(** ** [syftr/retrievers/remote.py] *)

Module Remote.
Import Py.

(** [llama_index] schema objects, as far as the source fills them in.  The
    fields of a [TextNode] hold the Python objects the source passes to the
    constructor; the score of a [NodeWithScore] holds what its
    [Optional[float]] field keeps of the object passed (None or a float). *)
Record TextNode : Type := mkTextNode
  { text : pyval; metadata : pyval; id_ : string }.

Record NodeWithScore : Type := mkNodeWithScore
  { node : TextNode; score : pyval }.

Record QueryBundle : Type := mkQueryBundle { query_str : string }.

Record RemoteRetriever : Type := mkRemoteRetriever
  { api_url : string;
    retrieval_method : string;
    top_k : Z;
    timeout : Z }.

(** What [requests.post] hands back: it raises, or it returns a response
    with a status line and a body that [response.json()] decodes or
    rejects. *)
Record Response : Type := mkResponse
  { status_code : Z;
    reason : string;
    json : result pyval }.

Inductive http_reply : Type :=
| PostRaises (e : exn)
| PostReturns (r : Response).

(** [Response.raise_for_status] of [requests]: 4xx and 5xx raise. *)
Definition raise_for_status (url : string) (r : Response) : result unit :=
  if (400 <=? status_code r)%Z && (status_code r <? 500)%Z then
    Raise (mkExn HTTPError
             (str_of_Z (status_code r) +:+ " Client Error: " +:+ reason r
              +:+ " for url: " +:+ url))
  else if (500 <=? status_code r)%Z && (status_code r <? 600)%Z then
    Raise (mkExn HTTPError
             (str_of_Z (status_code r) +:+ " Server Error: " +:+ reason r
              +:+ " for url: " +:+ url))
  else Ok tt.

Abbreviation Log := (list log_record).

Definition logger (lvl : log_level) (msg : string) : M Log unit :=
  fun lg => (Ok tt, lg ++ [mkLog lvl msg]).

(** [RemoteRetriever.__init__] (called without extra keyword arguments). *)
Definition __init__ (api_url0 retrieval_method0 : string) (top_k0 timeout0 : Z)
  : M Log RemoteRetriever :=
  let self := mkRemoteRetriever (rstrip "/" api_url0) retrieval_method0 top_k0 timeout0 in
  logger INFO ("Initialized RemoteRetriever: " +:+ retrieval_method0 +:+ " at "
               +:+ api_url0 +:+ ", top_k=" +:+ str_of_Z top_k0);;
  mret self.

Section Retrieve.

(** The network, Python's [hash] and the validation that the [pydantic]
    models of [llama_index] run in their constructors lie outside the
    repository: they are parameters.  Of the [score: Optional[float]] field
    of [NodeWithScore] only the treatment of a score that is neither None
    nor a number is a parameter: the float it is read as, or a refusal. *)
Variable requests_post :
  string -> pyval -> list (string * string) -> Z -> http_reply.
Variable py_hash_value : pyval -> Z.
Variable TextNode_accepts : pyval -> pyval -> string -> bool.
Variable NodeWithScore_other : pyval -> option float.

(** [hash(obj)]: lists and dicts are unhashable. *)
Definition py_hash (obj : pyval) : result Z :=
  match obj with
  | PyList _ | PyDict _ =>
      Raise (mkExn TypeError ("unhashable type: '" +:+ type_name obj +:+ "'"))
  | _ => Ok (py_hash_value obj)
  end.

Definition new_TextNode (text0 metadata0 : pyval) (id0 : string) : result TextNode :=
  if TextNode_accepts text0 metadata0 id0
  then Ok (mkTextNode text0 metadata0 id0)
  else Raise (mkExn ValidationError "validation error for TextNode").

(** What the [score: Optional[float]] field keeps of the object it is
    given: None stays None, a float stays as it is, an int becomes
    [float(score)] and is refused when that overflows. *)
Definition score_field (score0 : pyval) : option pyval :=
  match score0 with
  | PyNone => Some PyNone
  | PyFloat f => Some (PyFloat f)
  | PyInt z => option_map PyFloat (float_of_int z)
  | _ => option_map PyFloat (NodeWithScore_other score0)
  end.

Definition new_NodeWithScore (node0 : TextNode) (score0 : pyval) : result NodeWithScore :=
  match score_field score0 with
  | Some stored => Ok (mkNodeWithScore node0 stored)
  | None => Raise (mkExn ValidationError "validation error for NodeWithScore")
  end.

(** The body of the [for idx, result in enumerate(results)] loop. *)
Definition convert_result (self : RemoteRetriever) (idx : nat) (result0 : pyval)
  : result NodeWithScore :=
  score0 ← py_get result0 "score" (PyFloat 0%float);
  document ← py_get result0 "document" (PyDict []);
  page_content ← py_get document "page_content" (PyStr "");
  metadata0 ← py_get document "metadata" (PyDict []);
  h ← py_hash page_content;
  node0 ← new_TextNode page_content metadata0
            (retrieval_method self +:+ "_" +:+ str_of_nat idx +:+ "_" +:+ str_of_Z h);
  new_NodeWithScore node0 score0.

Fixpoint convert_loop (self : RemoteRetriever) (idx : nat) (results : list pyval)
    (nodes_with_scores : list NodeWithScore) : result (list NodeWithScore) :=
  match results with
  | [] => Ok nodes_with_scores
  | result0 :: rest =>
      node_with_score ← convert_result self idx result0;
      convert_loop self (S idx) rest (nodes_with_scores ++ [node_with_score])
  end.

(** The body of the [try] block of [_retrieve]. *)
Definition retrieve_body (self : RemoteRetriever) (query_str0 url : string)
    (payload : pyval) : M Log (list NodeWithScore) :=
  logger DEBUG ("Calling retrieval API: " +:+ url +:+ " with query: "
                +:+ str_prefix 100 query_str0 +:+ "...");;
  response ← lift (match requests_post url payload
                           [("Content-Type", "application/json")] (timeout self) with
                   | PostRaises e => Raise e
                   | PostReturns r => Ok r
                   end);
  lift (raise_for_status url response);;
  data ← lift (json response);
  results ← lift (py_get data "results" (PyList []));
  n ← lift (py_len results);
  logger INFO ("Retrieved " +:+ str_of_nat n +:+ " documents from "
               +:+ retrieval_method self +:+ " (requested top_k="
               +:+ str_of_Z (top_k self) +:+ ")");;
  items ← lift (py_iter results);
  lift (convert_loop self 0 items []).

Definition _retrieve (self : RemoteRetriever) (query_bundle : QueryBundle)
  : M Log (list NodeWithScore) :=
  let query_str0 := query_str query_bundle in
  let url := api_url self +:+ "/search" in
  let payload := PyDict [("query", PyStr query_str0); ("k", PyInt (top_k self))] in
  try_except (retrieve_body self query_str0 url payload)
    (fun e =>
       if is_RequestException e then
         logger ERROR ("Error calling retrieval API: " +:+ exn_msg e);;
         mret []
       else
         logger ERROR ("Unexpected error in remote retrieval: " +:+ exn_msg e);;
         mret []).

(** The request [_retrieve] sends. *)
Definition url_of (self : RemoteRetriever) : string := api_url self +:+ "/search".
Definition payload_of (self : RemoteRetriever) (q : QueryBundle) : pyval :=
  PyDict [("query", PyStr (query_str q)); ("k", PyInt (top_k self))].
Definition reply_of (self : RemoteRetriever) (q : QueryBundle) : http_reply :=
  requests_post (url_of self) (payload_of self q)
    [("Content-Type", "application/json")] (timeout self).
(** The [try] block of [_retrieve] for that request. *)
Definition body_of (self : RemoteRetriever) (q : QueryBundle) : M Log (list NodeWithScore) :=
  retrieve_body self (query_str q) (url_of self) (payload_of self q).

(** The two lines an undisturbed call logs. *)
Definition debug_line (self : RemoteRetriever) (q : QueryBundle) : log_record :=
  mkLog DEBUG ("Calling retrieval API: " +:+ url_of self +:+ " with query: "
               +:+ str_prefix 100 (query_str q) +:+ "...").
Definition info_line (self : RemoteRetriever) (n : nat) : log_record :=
  mkLog INFO ("Retrieved " +:+ str_of_nat n +:+ " documents from "
              +:+ retrieval_method self +:+ " (requested top_k="
              +:+ str_of_Z (top_k self) +:+ ")").

End Retrieve.

(** The registry, in the order the source lists it. *)
Definition RETRIEVAL_SERVER_PORTS : list (string * Z) :=
  [("bm25", 6030%Z); ("dense_small", 6002%Z); ("dense_large", 6001%Z);
   ("hybrid_small", 6024%Z); ("hybrid_large", 6025%Z)].

Fixpoint ports_lookup (d : list (string * Z)) (key : string) : option Z :=
  match d with
  | [] => None
  | (k, v) :: rest => if String.eqb k key then Some v else ports_lookup rest key
  end.

(** [repr] of a list of plain identifiers, as [str(list(d.keys()))] prints it. *)
Fixpoint repr_items (l : list string) : string :=
  match l with
  | [] => ""
  | [k] => "'" +:+ k +:+ "'"
  | k :: rest => "'" +:+ k +:+ "', " +:+ repr_items rest
  end.
Definition repr_keys (l : list string) : string := "[" +:+ repr_items l +:+ "]".

Definition get_remote_retriever (host retrieval_method0 : string)
    (top_k0 timeout0 : Z) : M Log RemoteRetriever :=
  match ports_lookup RETRIEVAL_SERVER_PORTS retrieval_method0 with
  | None =>
      lift (Raise (mkExn ValueError
                     ("Unknown retrieval method: " +:+ retrieval_method0
                      +:+ ". Valid options: "
                      +:+ repr_keys (map fst RETRIEVAL_SERVER_PORTS))))
  | Some port =>
      let api_url0 := "http://" +:+ host +:+ ":" +:+ str_of_Z port in
      __init__ api_url0 retrieval_method0 top_k0 timeout0
  end.

(** *** The response format, in the words of the specification *)

(** A key of a JSON object; absent when the value is no object. *)
Definition field (v : pyval) (key : string) : option pyval :=
  match v with
  | PyDict d => dict_lookup d key
  | _ => None
  end.

Definition is_number (v : pyval) : bool :=
  match v with
  | PyInt _ | PyFloat _ => true
  | _ => false
  end.

Definition is_str (v : pyval) : bool :=
  match v with
  | PyStr _ => true
  | _ => false
  end.

Definition is_object (v : pyval) : bool :=
  match v with
  | PyDict _ => true
  | _ => false
  end.

Definition absent_or (p : pyval -> bool) (o : option pyval) : bool :=
  match o with
  | None => true
  | Some v => p v
  end.

(** [{"score": number, "document": {"page_content": string, "metadata":
    object}}], every key optional. *)
Definition well_formed (r : pyval) : bool :=
  is_object r
  && absent_or is_number (field r "score")
  && absent_or (fun doc =>
                  is_object doc
                  && absent_or is_str (field doc "page_content")
                  && absent_or is_object (field doc "metadata"))
       (field r "document").

Definition spec_score (r : pyval) : pyval :=
  match field r "score" with
  | Some v => v
  | None => PyFloat 0%float
  end.

Definition spec_page_content (r : pyval) : pyval :=
  match field r "document" with
  | Some doc =>
      match field doc "page_content" with
      | Some v => v
      | None => PyStr ""
      end
  | None => PyStr ""
  end.

Definition spec_metadata (r : pyval) : pyval :=
  match field r "document" with
  | Some doc =>
      match field doc "metadata" with
      | Some v => v
      | None => PyDict []
      end
  | None => PyDict []
  end.

(** [float(v)] of a number. *)
Definition float_of_number (v : pyval) : option float :=
  match v with
  | PyFloat f => Some f
  | PyInt z => float_of_int z
  | _ => None
  end.

(** The score of a result as a float, when it has one. *)
Definition float_score (r : pyval) : option float := float_of_number (spec_score r).

Definition score_in_range (r : pyval) : bool :=
  match float_score r with
  | Some _ => true
  | None => false
  end.

(** The scored document the specification asks for at position [i]. *)
Definition spec_document (hash : pyval -> Z) (method : string) (i : nat) (r : pyval)
  : NodeWithScore :=
  mkNodeWithScore
    (mkTextNode (spec_page_content r) (spec_metadata r)
       (method +:+ "_" +:+ str_of_nat i +:+ "_" +:+ str_of_Z (hash (spec_page_content r))))
    (spec_score r).

(** The same document with the score as the float [f]. *)
Definition float_document (hash : pyval -> Z) (method : string) (i : nat) (r : pyval)
    (f : float) : NodeWithScore :=
  mkNodeWithScore (node (spec_document hash method i r)) (PyFloat f).

(** A response that [raise_for_status] lets through. *)
Definition status_ok (r : Response) : bool :=
  negb ((400 <=? status_code r)%Z && (status_code r <? 600)%Z).

(** The HTTP layer failed: no connection, a timeout, a 4xx or 5xx status,
    or a body that is not JSON. *)
Definition http_failed (reply : http_reply) : bool :=
  match reply with
  | PostRaises _ => true
  | PostReturns r =>
      negb (status_ok r)
      || match json r with
         | Ok _ => false
         | Raise _ => true
         end
  end.

(** What [TextNode] of [llama_index] is known to accept: a str text with a
    dict of metadata. *)
Definition accepts_documents (accepts : pyval -> pyval -> string -> bool) : Prop :=
  forall s d i, accepts (PyStr s) (PyDict d) i = true.

(** The service answered with a status that is no error and a body that
    decodes to [data]. *)
Definition responds_with (reply : http_reply) (data : pyval) : Prop :=
  exists r, reply = PostReturns r /\ status_ok r = true /\ json r = Ok data.

Definition ids (out : list NodeWithScore) : list string :=
  map (fun n => id_ (node n)) out.

End Remote.

(** ** [syftr/ray/utils.py] *)

Module RayUtils.
Import Py.

(** The two settings [ray_init] reads from [syftr.configuration.cfg]:
    [cfg.ray.remote_endpoint] (a str, or None when no endpoint is set) and
    [cfg.logging.level]. *)
Record Config : Type := mkConfig
  { ray_remote_endpoint : option string;
    logging_level : pyval }.

(** The client that [ray.init] leaves behind. *)
Record RayClient : Type := mkRayClient { client_address : string }.

(** Calls that leave the process, in the order they are made. *)
Inductive event : Type :=
| EvLog (r : log_record)
| EvGetUser
| EvMakedirs (path : string)
| EvSetEnv (key value : string)
| EvRayInit (address : option string) (level : pyval).

Record World : Type := mkWorld
  { ray_client : option RayClient;
    environ : gmap string string;
    directories : gset string;
    trace : list event }.

(** [ray.is_initialized()] *)
Definition is_initialized (w : World) : bool :=
  match ray_client w with
  | Some _ => true
  | None => false
  end.

Definition emit (e : event) (w : World) : World :=
  mkWorld (ray_client w) (environ w) (directories w) (trace w ++ [e]).

Definition logger (lvl : log_level) (msg : string) : M World unit :=
  fun w => (Ok tt, emit (EvLog (mkLog lvl msg)) w).

(** The line a repeated call logs. *)
Definition warning_line (c : RayClient) : event :=
  EvLog (mkLog WARNING ("Using existing ray client with address '"
                        +:+ client_address c +:+ "'")).

Definition ends_with_sep (s : string) : bool :=
  match String.length s with
  | O => false
  | S n => match String.get n s with
           | Some c => Ascii.eqb c "/"
           | None => false
           end
  end.

Definition starts_with_sep (s : string) : bool :=
  match s with
  | String c _ => Ascii.eqb c "/"
  | EmptyString => false
  end.

(** [os.path.join(a, b)] of [posixpath], for two components. *)
Definition path_join (a b : string) : string :=
  if starts_with_sep b then b
  else if String.eqb a "" || ends_with_sep a then a +:+ b
  else a +:+ "/" +:+ b.

Section RayInit.

Variable cfg : Config.

(** The operating system and the Ray library are parameters:
    [getpass.getuser()], what [os.makedirs(path, exist_ok=True)] does to the
    set of directories, and the client [ray.init] returns, each of which
    may raise. *)
Variable getpass_getuser : gmap string string -> result string.
Variable os_makedirs : string -> gset string -> result (gset string).
Variable ray_connect : option string -> pyval -> result RayClient.

Definition getuser : M World string :=
  fun w => (getpass_getuser (environ w), emit EvGetUser w).

Definition makedirs (path : string) : M World unit :=
  fun w =>
    let w' := emit (EvMakedirs path) w in
    match os_makedirs path (directories w') with
    | Ok ds => (Ok tt, mkWorld (ray_client w') (environ w') ds (trace w'))
    | Raise e => (Raise e, w')
    end.

(** [os.environ.get(key, default)] *)
Definition environ_get (key default : string) : M World string :=
  fun w => (Ok (match environ w !! key with
                | Some v => v
                | None => default
                end), w).

(** [os.environ[key] = value] *)
Definition environ_set (key value : string) : M World unit :=
  fun w =>
    let w' := emit (EvSetEnv key value) w in
    (Ok tt, mkWorld (ray_client w') (<[key := value]> (environ w'))
              (directories w') (trace w')).

(** [ray.init(address=..., logging_level=...)] *)
Definition ray_dot_init (address : option string) (level : pyval) : M World unit :=
  fun w =>
    let w' := emit (EvRayInit address level) w in
    match ray_connect address level with
    | Ok c => (Ok tt, mkWorld (Some c) (environ w') (directories w') (trace w'))
    | Raise e => (Raise e, w')
    end.

Definition ray_init (force_remote : bool) : M World unit :=
  fun w =>
    match ray_client w with
    | Some existing =>
        logger WARNING ("Using existing ray client with address '"
                        +:+ client_address existing +:+ "'") w
    | None =>
        (let address := if force_remote then ray_remote_endpoint cfg else None in
         match address with
         | None =>
             username ← getuser;
             mathew_home ← environ_get "MATHEW_HOME" "/tmp";
             let ray_tmpdir := path_join mathew_home "ray" in
             makedirs ray_tmpdir;;
             logger INFO ("Using local ray client with temporary directory '"
                          +:+ ray_tmpdir +:+ "'");;
             environ_set "RAY_TMPDIR" ray_tmpdir
         | Some _ => mret tt
         end;;
         ray_dot_init address (logging_level cfg)) w
    end.

End RayInit.

End RayUtils.

(** ** Concrete inputs *)

Module Samples.
Import Py Remote RayUtils.

Definition sample_hash (v : pyval) : Z :=
  match v with
  | PyStr s => (Z.of_nat (String.length s) - 7)%Z
  | _ => 0%Z
  end.

Definition sample_TextNode_accepts (text0 metadata0 : pyval) (id0 : string) : bool :=
  is_str text0 && is_object metadata0.

Definition sample_other_score (score0 : pyval) : option float :=
  match score0 with
  | PyBool true => Some 1%float
  | PyBool false => Some 0%float
  | _ => None
  end.

(** A network that answers every request in the same way. *)
Definition always (reply : http_reply)
  : string -> pyval -> list (string * string) -> Z -> http_reply :=
  fun _ _ _ _ => reply.

Definition connection_refused : http_reply :=
  PostRaises (mkExn ConnectionError "Connection refused").

Definition ok_response (data : pyval) : http_reply :=
  PostReturns (mkResponse 200 "OK" (Ok data)).

Definition a_retriever : RemoteRetriever :=
  mkRemoteRetriever "http://10.0.0.1:6002" "dense_small" 10 30.

Definition a_query : QueryBundle := mkQueryBundle "what is ray".

Definition full_result : pyval :=
  PyDict [("score", PyFloat 0.5%float);
          ("document", PyDict [("page_content", PyStr "alpha");
                               ("metadata", PyDict [("source", PyStr "a.txt")])])].

Definition bare_result : pyval := PyDict [].

Definition two_results : pyval :=
  PyDict [("results", PyList [full_result; bare_result])].

Definition broken_results : pyval :=
  PyDict [("results", PyList [full_result; PyInt 3; bare_result])].

Definition no_results : pyval := PyDict [("took_ms", PyInt 4)].

(** A score too large for a float, and one that no float represents. *)
Definition huge_score_result : pyval := PyDict [("score", PyInt (10 ^ 400))].
Definition odd_score_result : pyval := PyDict [("score", PyInt (2 ^ 53 + 1))].

Definition results_of (rs : list pyval) : pyval := PyDict [("results", PyList rs)].

Definition sample_cfg : Config := mkConfig (Some "ray://head:10001") (PyStr "INFO").
Definition unset_cfg : Config := mkConfig None (PyStr "INFO").

Definition sample_getuser (env : gmap string string) : result string := Ok "syftr".
Definition sample_makedirs (path : string) (ds : gset string) : result (gset string) :=
  Ok ({[path]} ∪ ds).
Definition sample_connect (address : option string) (level : pyval) : result RayClient :=
  Ok (mkRayClient (match address with
                   | Some a => a
                   | None => "127.0.0.1:6379"
                   end)).

Definition fresh_world : World := mkWorld None ∅ ∅ [].
Definition connected_world : World :=
  mkWorld (Some (mkRayClient "127.0.0.1:6379")) ∅ ∅ [].

End Samples.

(** ** Vocabulary for the further properties *)

Module Derived.
Import Py Remote RayUtils.

(** [c * n] *)
Fixpoint fill (c : ascii) (n : nat) : string :=
  match n with
  | O => EmptyString
  | S k => String c (fill c k)
  end.

(** [s[-1]], when there is one. *)
Fixpoint last_char (s : string) : option ascii :=
  match s with
  | EmptyString => None
  | String a EmptyString => Some a
  | String _ r => last_char r
  end.

Definition is_error_line (r : log_record) : bool :=
  match log_lvl r with
  | ERROR => true
  | _ => false
  end.

Definition is_array (v : pyval) : bool :=
  match v with
  | PyList _ => true
  | _ => false
  end.

(** The values [hash] refuses. *)
Definition unhashable (v : pyval) : bool :=
  match v with
  | PyList _ | PyDict _ => true
  | _ => false
  end.

(** The directory the local branch of [ray_init] works with. *)
Definition local_tmpdir (env : gmap string string) : string :=
  path_join (match env !! "MATHEW_HOME" with
             | Some v => v
             | None => "/tmp"
             end) "ray".

Definition tmpdir_line (tmp : string) : event :=
  EvLog (mkLog INFO ("Using local ray client with temporary directory '"
                     +:+ tmp +:+ "'")).

(** More inputs. *)
Definition keyed_results : pyval :=
  PyDict [("results", PyDict [("0", Samples.full_result)])].

Definition nested_content : pyval :=
  PyDict [("results",
           PyList [Samples.full_result;
                   PyDict [("document", PyDict [("page_content", PyList [PyStr "a"])])]])].

Definition b_retriever : RemoteRetriever :=
  mkRemoteRetriever "http://10.0.0.2:7002/api" "dense_small" 3 5.

Definition b_query : QueryBundle := mkQueryBundle "another question".

Definition home_world : World :=
  mkWorld None (<["MATHEW_HOME" := "/scratch/mathew/"]> (<["RAY_TMPDIR" := "/old"]> ∅)) ∅ [].

Definition failing_makedirs (path : string) (ds : gset string) : result (gset string) :=
  Raise (mkExn OSError ("[Errno 13] Permission denied: '" +:+ path +:+ "'")).

Definition failing_getuser (env : gmap string string) : result string :=
  Raise (mkExn OSError "No username set in the environment").

Definition failing_connect (address : option string) (level : pyval) : result RayClient :=
  Raise (mkExn ConnectionError "ray client connection timeout").

End Derived.

(** ** Facts about the Python primitives *)

Module PyFacts.
Import Py.

Lemma append_nonempty (s t : string) : t <> "" -> s +:+ t <> "".
Proof.
  destruct s as [|a s]; simpl; [tauto | discriminate].
Qed.

(** Stripping does nothing to a string whose last character is kept. *)
Lemma rstrip_append (c : ascii) (s t : string) :
  t <> "" -> rstrip c t = t -> rstrip c (s +:+ t) = s +:+ t.
Proof.
  intros Hne Hfix. induction s as [|a s IH]; simpl; [exact Hfix|].
  rewrite IH. pose proof (append_nonempty s t Hne) as Hst.
  change (String a s +:+ t) with (String a (s +:+ t)).
  destruct (s +:+ t); [contradiction | reflexivity].
Qed.

Lemma string_eqb_neq (a b : string) : a <> b -> String.eqb a b = false.
Proof. intros H. now apply String.eqb_neq. Qed.

Lemma append_cancel_l (s a b : string) : s +:+ a = s +:+ b -> a = b.
Proof.
  induction s as [|c s IH]; simpl; intros H; [exact H|].
  injection H as H. auto.
Qed.

(** Two strings that agree, each cut at its first separator, have the same
    part before it. *)
Lemma separator_cut (c : ascii) (a b x y : string) :
  occurs c a = false -> occurs c b = false ->
  a +:+ String c x = b +:+ String c y -> a = b.
Proof.
  revert b. induction a as [|p a IH]; intros [|p' b]; simpl; intros Ha Hb H.
  - reflexivity.
  - injection H as Hc _. subst p'. rewrite Ascii.eqb_refl in Hb. discriminate.
  - injection H as Hc _. subst p. rewrite Ascii.eqb_refl in Ha. discriminate.
  - injection H as Hc H. subst p'.
    apply orb_false_iff in Ha as [_ Ha]. apply orb_false_iff in Hb as [_ Hb].
    f_equal. eauto.
Qed.

Lemma digits_no_underscore (d : Decimal.uint) :
  occurs "_" (NilEmpty.string_of_uint d) = false.
Proof. induction d; simpl; auto. Qed.

Lemma str_of_nat_no_underscore (n : nat) : occurs "_" (str_of_nat n) = false.
Proof.
  unfold str_of_nat, NilZero.string_of_uint.
  destruct (Nat.to_uint n) eqn:E; try reflexivity;
    rewrite <- E; apply digits_no_underscore.
Qed.

Lemma str_of_nat_inj (n m : nat) : str_of_nat n = str_of_nat m -> n = m.
Proof.
  unfold str_of_nat. intros H.
  apply Unsigned.to_uint_inj.
  assert (Hu : forall d, NilZero.uint_of_string (NilZero.string_of_uint d)
                         = Some (match d with Decimal.Nil => Decimal.zero | _ => d end)).
  { intros d. destruct d; try reflexivity; apply NilZero.usu; discriminate. }
  assert (Hnn : forall k, Nat.to_uint k <> Decimal.Nil).
  { intros k Hk. pose proof (Unsigned.of_to k) as Ho. rewrite Hk in Ho.
    cbn in Ho. subst k. discriminate Hk. }
  pose proof (Hu (Nat.to_uint n)) as Hn. pose proof (Hu (Nat.to_uint m)) as Hm.
  rewrite H in Hn. rewrite Hn in Hm.
  destruct (Nat.to_uint n) eqn:En; [now apply Hnn in En|..];
    destruct (Nat.to_uint m) eqn:Em; try (now apply Hnn in Em); congruence.
Qed.

(** The index of an identifier [{method}_{index}_{hash}] is determined by
    the identifier. *)
Lemma identifier_index (method x y : string) (i j : nat) :
  method +:+ "_" +:+ str_of_nat i +:+ "_" +:+ x
  = method +:+ "_" +:+ str_of_nat j +:+ "_" +:+ y -> i = j.
Proof.
  intros H. apply append_cancel_l in H.
  apply (append_cancel_l "_") in H.
  apply str_of_nat_inj.
  apply (separator_cut "_" _ _ x y);
    [apply str_of_nat_no_underscore | apply str_of_nat_no_underscore | exact H].
Qed.

End PyFacts.

(** ** The factory and the constructor *)

Module FactoryFacts.
Import Py Remote PyFacts.

Lemma init_result (u m : string) (k t : Z) (lg : Log) :
  __init__ u m k t lg =
  (Ok (mkRemoteRetriever (rstrip "/" u) m k t),
   lg ++ [mkLog INFO ("Initialized RemoteRetriever: " +:+ m +:+ " at " +:+ u
                      +:+ ", top_k=" +:+ str_of_Z k)]).
Proof. reflexivity. Qed.

Lemma base_url_kept (host digits : string) :
  digits <> "" -> rstrip "/" digits = digits ->
  rstrip "/" ("http://" +:+ host +:+ ":" +:+ digits) = "http://" +:+ host +:+ ":" +:+ digits.
Proof.
  intros Hne Hfix.
  assert (Hc : rstrip "/" (":" +:+ digits) = ":" +:+ digits).
  { apply (rstrip_append "/" ":" digits); assumption. }
  assert (Hh : rstrip "/" (host +:+ ":" +:+ digits) = host +:+ ":" +:+ digits).
  { apply rstrip_append; [discriminate | exact Hc]. }
  apply (rstrip_append "/" "http://"); [|exact Hh].
  apply append_nonempty. discriminate.
Qed.

Lemma lookup_unknown (m : string) :
  ~ In m (map fst RETRIEVAL_SERVER_PORTS) ->
  ports_lookup RETRIEVAL_SERVER_PORTS m = None.
Proof.
  intros H. simpl in H. cbn [RETRIEVAL_SERVER_PORTS ports_lookup].
  repeat (rewrite string_eqb_neq; [|intros E; apply H; auto 10]).
  reflexivity.
Qed.

(** C3: for each of the five registered methods the factory returns a
    retriever whose base URL is [http://{host}:{port}] with the registered
    port, and whose method, top_k and timeout are the arguments. *)
Theorem factory_registered_methods (host : string) (k t : Z) (lg : Log) :
  fst (get_remote_retriever host "bm25" k t lg)
    = Ok (mkRemoteRetriever ("http://" +:+ host +:+ ":6030") "bm25" k t)
  /\ fst (get_remote_retriever host "dense_small" k t lg)
    = Ok (mkRemoteRetriever ("http://" +:+ host +:+ ":6002") "dense_small" k t)
  /\ fst (get_remote_retriever host "dense_large" k t lg)
    = Ok (mkRemoteRetriever ("http://" +:+ host +:+ ":6001") "dense_large" k t)
  /\ fst (get_remote_retriever host "hybrid_small" k t lg)
    = Ok (mkRemoteRetriever ("http://" +:+ host +:+ ":6024") "hybrid_small" k t)
  /\ fst (get_remote_retriever host "hybrid_large" k t lg)
    = Ok (mkRemoteRetriever ("http://" +:+ host +:+ ":6025") "hybrid_large" k t).
Proof.
  repeat split;
    (unfold get_remote_retriever; cbn [ports_lookup RETRIEVAL_SERVER_PORTS String.eqb Ascii.eqb Bool.eqb];
     rewrite init_result; cbn [fst]; f_equal; f_equal;
     apply (base_url_kept host); [discriminate | reflexivity]).
Qed.

(** C4: a method outside the registry makes the factory raise a
    ValueError that names the method and lists the valid options; the
    constructor is not run, so nothing is logged. *)
Theorem factory_unknown_method (host m : string) (k t : Z) (lg : Log) :
  ~ In m ["bm25"; "dense_small"; "dense_large"; "hybrid_small"; "hybrid_large"] ->
  get_remote_retriever host m k t lg =
  (Raise (mkExn ValueError
            ("Unknown retrieval method: " +:+ m +:+
             ". Valid options: ['bm25', 'dense_small', 'dense_large', 'hybrid_small', 'hybrid_large']")),
   lg).
Proof.
  intros H. unfold get_remote_retriever.
  rewrite (lookup_unknown m H). reflexivity.
Qed.

Lemma factory_unknown_method_witness :
  get_remote_retriever "10.0.0.1" "sparse" 10 30 [] =
  (Raise (mkExn ValueError
            "Unknown retrieval method: sparse. Valid options: ['bm25', 'dense_small', 'dense_large', 'hybrid_small', 'hybrid_large']"),
   []).
Proof.
  apply (factory_unknown_method "10.0.0.1" "sparse" 10 30 []).
  simpl. intros [H|[H|[H|[H|[H|[]]]]]]; discriminate H.
Defined.

End FactoryFacts.

(** ** [RemoteRetriever._retrieve] *)

Module RetrieveFacts.
Import Py Remote PyFacts.

Section Retrieve.

Variable requests_post :
  string -> pyval -> list (string * string) -> Z -> http_reply.
Variable py_hash_value : pyval -> Z.
Variable TextNode_accepts : pyval -> pyval -> string -> bool.
Variable NodeWithScore_other : pyval -> option float.

Abbreviation convert_result :=
  (Remote.convert_result py_hash_value TextNode_accepts NodeWithScore_other).
Abbreviation convert_loop :=
  (Remote.convert_loop py_hash_value TextNode_accepts NodeWithScore_other).
Abbreviation _retrieve :=
  (Remote._retrieve requests_post py_hash_value TextNode_accepts NodeWithScore_other).
Abbreviation reply_of := (Remote.reply_of requests_post).
Abbreviation body_of :=
  (Remote.body_of requests_post py_hash_value TextNode_accepts NodeWithScore_other).

Ltac run_body :=
  unfold Remote.body_of, Remote.retrieve_body, mbind, M_bind, lift, logger;
  cbn beta iota.

(** The handlers turn every exception of the body into the empty list. *)
Lemma retrieve_handles (self : RemoteRetriever) (q : QueryBundle) (lg : Log) :
  fst (_retrieve self q lg) =
  match fst (body_of self q lg) with
  | Ok out => Ok out
  | Raise _ => Ok []
  end.
Proof.
  unfold Remote._retrieve, try_except. fold (url_of self) (payload_of self q).
  fold (body_of self q).
  destruct (body_of self q lg) as [[out|e] lg']; cbn [fst]; [reflexivity|].
  destruct (is_RequestException e); reflexivity.
Qed.

Lemma retrieve_normal (self : RemoteRetriever) (q : QueryBundle) (lg lg' : Log) out :
  body_of self q lg = (Ok out, lg') -> _retrieve self q lg = (Ok out, lg').
Proof.
  intros H. unfold Remote._retrieve, try_except.
  fold (url_of self) (payload_of self q). fold (body_of self q).
  now rewrite H.
Qed.

Lemma body_post_raises (self : RemoteRetriever) (q : QueryBundle) (lg : Log) e :
  reply_of self q = PostRaises e ->
  body_of self q lg = (Raise e, lg ++ [debug_line self q]).
Proof.
  intros H. run_body. fold (reply_of self q). rewrite H. reflexivity.
Qed.

Lemma body_bad_status (self : RemoteRetriever) (q : QueryBundle) (lg : Log) r :
  reply_of self q = PostReturns r -> status_ok r = false ->
  exists e, body_of self q lg = (Raise e, lg ++ [debug_line self q]).
Proof.
  intros H Hs. run_body. fold (reply_of self q). rewrite H.
  unfold status_ok in Hs. unfold raise_for_status.
  destruct (400 <=? status_code r)%Z eqn:E1, (status_code r <? 500)%Z eqn:E2;
    cbn [andb]; eauto.
  - destruct (500 <=? status_code r)%Z eqn:E3, (status_code r <? 600)%Z eqn:E4;
      cbn [andb]; eauto; cbn in Hs; try discriminate; lia.
  - cbn in Hs. discriminate.
  - cbn in Hs. discriminate.
Qed.

Lemma raise_for_status_ok (url : string) (r : Response) :
  status_ok r = true -> raise_for_status url r = Ok tt.
Proof.
  unfold status_ok, raise_for_status. intros Hs.
  destruct (400 <=? status_code r)%Z eqn:E1, (status_code r <? 500)%Z eqn:E2;
    cbn [andb]; try reflexivity;
    destruct (500 <=? status_code r)%Z eqn:E3, (status_code r <? 600)%Z eqn:E4;
    cbn [andb]; try reflexivity; cbn in Hs; try discriminate; lia.
Qed.

Lemma body_bad_json (self : RemoteRetriever) (q : QueryBundle) (lg : Log) r e :
  reply_of self q = PostReturns r -> status_ok r = true -> json r = Raise e ->
  body_of self q lg = (Raise e, lg ++ [debug_line self q]).
Proof.
  intros H Hs Hj. run_body. fold (reply_of self q). rewrite H.
  rewrite (raise_for_status_ok _ _ Hs), Hj. reflexivity.
Qed.

(** Once the response is decoded and [results] is read, the body is the
    conversion loop. *)
Lemma body_decoded (self : RemoteRetriever) (q : QueryBundle) (lg : Log)
    r data results n items :
  reply_of self q = PostReturns r -> status_ok r = true -> json r = Ok data ->
  py_get data "results" (PyList []) = Ok results ->
  py_len results = Ok n -> py_iter results = Ok items ->
  body_of self q lg =
  (convert_loop self 0 items [], lg ++ [debug_line self q] ++ [info_line self n]).
Proof.
  intros H Hs Hj Hg Hl Hi. run_body. fold (reply_of self q). rewrite H.
  rewrite (raise_for_status_ok _ _ Hs), Hj, Hg, Hl, Hi.
  rewrite <- app_assoc. reflexivity.
Qed.

Lemma http_failed_raises (self : RemoteRetriever) (q : QueryBundle) (lg : Log) :
  http_failed (reply_of self q) = true ->
  exists e, fst (body_of self q lg) = Raise e.
Proof.
  intros Hf. destruct (reply_of self q) as [e|r] eqn:Hr.
  - exists e. now rewrite (body_post_raises _ _ _ _ Hr).
  - cbn in Hf. destruct (status_ok r) eqn:Hs.
    + destruct (json r) as [d|e] eqn:Hj; [discriminate|].
      exists e. now rewrite (body_bad_json _ _ _ _ _ Hr Hs Hj).
    + destruct (body_bad_status _ _ lg _ Hr Hs) as [e He].
      exists e. now rewrite He.
Qed.

(** C1: whatever the HTTP layer does, [_retrieve] returns a list and never
    raises; when the HTTP layer failed (connection error, timeout, 4xx or
    5xx status, undecodable body), or the body of the [try] raised any
    exception at all, the list is empty. *)
Theorem retrieve_never_raises (self : RemoteRetriever) (q : QueryBundle) (lg : Log) :
  (exists out, fst (_retrieve self q lg) = Ok out)
  /\ (http_failed (reply_of self q) = true -> fst (_retrieve self q lg) = Ok [])
  /\ (forall e, fst (body_of self q lg) = Raise e -> fst (_retrieve self q lg) = Ok []).
Proof.
  rewrite retrieve_handles. split; [|split].
  - destruct (fst (body_of self q lg)); eauto.
  - intros Hf. destruct (http_failed_raises self q lg Hf) as [e He]. now rewrite He.
  - intros e He. now rewrite He.
Qed.

(** *** The conversion loop *)

(** What a conversion that succeeds has built: the node of the
    specification, and the score as the score field keeps it. *)
Lemma convert_result_built (self : RemoteRetriever) (i : nat) (r : pyval) n :
  convert_result self i r = Ok n ->
  node n = node (spec_document py_hash_value (retrieval_method self) i r)
  /\ score_field NodeWithScore_other (spec_score r) = Some (score n).
Proof.
  destruct r as [| | | | | |d]; try discriminate.
  unfold Remote.convert_result, Remote.spec_document, spec_score,
    spec_page_content, spec_metadata, field.
  cbn [py_get node].
  destruct (dict_lookup d "score") as [sc|];
    destruct (dict_lookup d "document") as [[| | | | | |dd]|];
    cbn [mbind result_bind py_get dict_lookup]; try discriminate;
    try (destruct (dict_lookup dd "page_content") as [[| | | | | |]|];
         destruct (dict_lookup dd "metadata") as [md|]);
    cbn [mbind result_bind Remote.py_hash]; try discriminate;
    unfold new_TextNode;
    match goal with
    | |- context [TextNode_accepts ?a ?b ?c] => destruct (TextNode_accepts a b c)
    end; cbn [mbind result_bind]; try discriminate;
    unfold new_NodeWithScore;
    match goal with
    | |- context [Remote.score_field ?o ?v] =>
        destruct (Remote.score_field o v) as [stored|] eqn:Es
    end; try discriminate; intros [= <-]; cbn [node score];
    (split; [reflexivity | first [reflexivity | exact Es]]).
Qed.

Lemma score_field_number (v : pyval) (f : float) :
  float_of_number v = Some f ->
  score_field NodeWithScore_other v = Some (PyFloat f).
Proof.
  destruct v; try discriminate; cbn.
  - intros ->. reflexivity.
  - now intros [= ->].
Qed.

Lemma convert_well_formed (self : RemoteRetriever) (i : nat) (r : pyval) f :
  accepts_documents TextNode_accepts ->
  well_formed r = true -> float_score r = Some f ->
  convert_result self i r
  = Ok (float_document py_hash_value (retrieval_method self) i r f).
Proof.
  intros Htn Hwf Hf. destruct r as [| | | | | |d]; try discriminate Hwf.
  unfold well_formed in Hwf. cbn [is_object andb field] in Hwf.
  apply andb_true_iff in Hwf as [_ Hdoc].
  unfold float_score, spec_score, field in Hf.
  apply score_field_number in Hf.
  unfold Remote.convert_result, float_document, spec_document, spec_score,
    spec_page_content, spec_metadata, py_get, field.
  cbn [node].
  destruct (dict_lookup d "document") as [doc|] eqn:Ed; cbn [absent_or] in Hdoc.
  - destruct doc as [| | | | | |dd]; try discriminate Hdoc.
    cbn [is_object andb field] in Hdoc.
    apply andb_true_iff in Hdoc as [Hpc Hmd].
    destruct (dict_lookup d "score") as [sc|]; cbn [mbind result_bind];
      destruct (dict_lookup dd "page_content") as [[| | | |pc| |]|];
      try discriminate Hpc;
      destruct (dict_lookup dd "metadata") as [[| | | | | |md]|];
      try discriminate Hmd;
      cbn [mbind result_bind Remote.py_hash];
      unfold new_TextNode; rewrite Htn; cbn [mbind result_bind];
      unfold new_NodeWithScore; rewrite Hf; reflexivity.
  - destruct (dict_lookup d "score") as [sc|];
      cbn [mbind result_bind dict_lookup Remote.py_hash];
      unfold new_TextNode; rewrite Htn; cbn [mbind result_bind];
      unfold new_NodeWithScore; rewrite Hf; reflexivity.
Qed.

Lemma convert_loop_well_formed (self : RemoteRetriever) (rs : list pyval) :
  accepts_documents TextNode_accepts ->
  forallb well_formed rs = true ->
  forallb score_in_range rs = true ->
  forall idx acc,
  exists ns,
    convert_loop self idx rs acc = Ok (acc ++ ns)
    /\ length ns = length rs
    /\ forall j r, rs !! j = Some r ->
        exists f, float_score r = Some f
                  /\ ns !! j = Some (float_document py_hash_value
                                       (retrieval_method self) (idx + j) r f).
Proof.
  intros Htn. induction rs as [|r rs IH]; intros Hwf Hin idx acc;
    cbn [Remote.convert_loop].
  - exists []. rewrite app_nil_r. repeat split. intros j r Hj. discriminate Hj.
  - cbn [forallb] in Hwf, Hin.
    apply andb_true_iff in Hwf as [Hr Hrs]. apply andb_true_iff in Hin as [Hs Hss].
    unfold score_in_range in Hs.
    destruct (float_score r) as [f|] eqn:Hf; [|discriminate Hs].
    rewrite (convert_well_formed self idx r f Htn Hr Hf). cbn [mbind result_bind].
    destruct (IH Hrs Hss (S idx)
                (acc ++ [float_document py_hash_value (retrieval_method self) idx r f]))
      as (ns & Hloop & Hlen & Hat).
    exists (float_document py_hash_value (retrieval_method self) idx r f :: ns).
    split; [|split].
    + rewrite Hloop, <- app_assoc. reflexivity.
    + cbn. now rewrite Hlen.
    + intros [|j] x Hj.
      * injection Hj as <-. exists f. rewrite Nat.add_0_r. split; [exact Hf | reflexivity].
      * destruct (Hat j x Hj) as (g & Hg & Hns). exists g. split; [exact Hg|].
        replace (idx + S j) with (S idx + j) by lia. exact Hns.
Qed.

(** The identifiers of a completed loop are those of the specification. *)
Lemma convert_loop_ids (self : RemoteRetriever) (rs : list pyval) :
  forall idx acc out,
    convert_loop self idx rs acc = Ok out ->
    ids out = ids acc
              ++ ids (imap (fun j => spec_document py_hash_value
                                       (retrieval_method self) (idx + j)) rs).
Proof.
  induction rs as [|r rs IH]; intros idx acc out; cbn [Remote.convert_loop].
  - intros [= <-]. cbn. now rewrite app_nil_r.
  - destruct (convert_result self idx r) as [n|e] eqn:En;
      cbn [mbind result_bind]; [|discriminate].
    intros H. apply IH in H. rewrite H.
    destruct (convert_result_built self idx r n En) as [Hn _].
    unfold ids. rewrite imap_cons, List.map_app, <- app_assoc.
    cbn [List.map app]. rewrite Nat.add_0_r, Hn. do 3 f_equal.
    apply imap_ext. intros j x _. cbn. f_equal. lia.
Qed.

(** A raise anywhere in the batch is a raise of the loop. *)
Lemma convert_loop_raises (self : RemoteRetriever) (rs : list pyval) :
  forall idx acc i bad e,
    rs !! i = Some bad -> convert_result self (idx + i) bad = Raise e ->
    exists e', convert_loop self idx rs acc = Raise e'.
Proof.
  induction rs as [|r rs IH]; intros idx acc i bad e Hi He; [discriminate Hi|].
  cbn [Remote.convert_loop]. destruct i as [|i].
  - injection Hi as ->. rewrite Nat.add_0_r in He. rewrite He. eauto.
  - destruct (convert_result self idx r) as [n|e0]; cbn [mbind result_bind]; [|eauto].
    apply (IH (S idx) _ i bad e); [exact Hi|].
    now replace (S idx + i) with (idx + S i) by lia.
Qed.

(** Every identifier the loop adds carries the method and its index. *)
Lemma identifiers_distinct (method : string) (rs : list pyval) :
  NoDup (ids (imap (spec_document py_hash_value method) rs)).
Proof.
  apply NoDup_alt. intros i j x Hi Hj. unfold ids in Hi, Hj.
  rewrite list_lookup_fmap, list_lookup_imap in Hi, Hj.
  destruct (rs !! i) as [ri|]; [|discriminate Hi].
  destruct (rs !! j) as [rj|]; [|discriminate Hj].
  cbn in Hi, Hj. injection Hi as Hi. injection Hj as Hj. subst x.
  symmetry in Hj. exact (identifier_index _ _ _ _ _ Hj).
Qed.

Lemma non_mapping_raises (self : RemoteRetriever) (i : nat) (r : pyval) :
  is_object r = false -> exists e, convert_result self i r = Raise e.
Proof.
  destruct r; try discriminate; intros _; cbn; eauto.
Qed.



(** *** Decoded responses *)

Lemma body_results_list (self : RemoteRetriever) (q : QueryBundle) (lg : Log) data rs :
  responds_with (reply_of self q) data ->
  field data "results" = Some (PyList rs) ->
  body_of self q lg =
  (convert_loop self 0 rs [],
   lg ++ [debug_line self q] ++ [info_line self (length rs)]).
Proof.
  intros (r & Hr & Hs & Hj) Hf.
  apply (body_decoded self q lg r data (PyList rs) (length rs) rs);
    try assumption; try reflexivity.
  destruct data; try discriminate Hf. cbn in Hf |- *. now rewrite Hf.
Qed.

Lemma body_results_absent (self : RemoteRetriever) (q : QueryBundle) (lg : Log) d :
  responds_with (reply_of self q) (PyDict d) ->
  dict_lookup d "results" = None ->
  body_of self q lg = (Ok [], lg ++ [debug_line self q] ++ [info_line self 0]).
Proof.
  intros (r & Hr & Hs & Hj) Hf.
  apply (body_decoded self q lg r (PyDict d) (PyList []) 0 []);
    try assumption; try reflexivity.
  cbn. now rewrite Hf.
Qed.

Lemma retrieve_results_loop (self : RemoteRetriever) (q : QueryBundle) (lg : Log)
    data rs :
  responds_with (reply_of self q) data ->
  field data "results" = Some (PyList rs) ->
  fst (_retrieve self q lg)
  = match convert_loop self 0 rs [] with
    | Ok out => Ok out
    | Raise _ => Ok []
    end.
Proof.
  intros Hresp Hf.
  now rewrite retrieve_handles, (body_results_list self q lg data rs Hresp Hf).
Qed.

(** C2, amended: a decoded response whose [results] array holds N
    well-formed elements, each with a score that is absent or converts to a
    float, yields N scored documents, the i-th one built from the i-th
    element: its score as a float (0.0 when absent), its page content (the
    empty string when absent), its metadata (the empty mapping when absent)
    and the identifier [{method}_{i}_{hash(page_content)}].  [top_k] plays
    no part: the list is neither cut nor padded. *)
Theorem retrieve_maps_results_in_order (self : RemoteRetriever) (q : QueryBundle)
    (lg : Log) data rs :
  accepts_documents TextNode_accepts ->
  responds_with (reply_of self q) data ->
  field data "results" = Some (PyList rs) ->
  forallb well_formed rs = true ->
  forallb score_in_range rs = true ->
  exists out,
    fst (_retrieve self q lg) = Ok out
    /\ length out = length rs
    /\ forall i r, rs !! i = Some r ->
        exists f, float_score r = Some f
                  /\ out !! i = Some (float_document py_hash_value
                                        (retrieval_method self) i r f).
Proof.
  intros Htn Hresp Hf Hwf Hin.
  destruct (convert_loop_well_formed self rs Htn Hwf Hin 0 [])
    as (ns & Hloop & Hlen & Hat).
  exists ns. rewrite (retrieve_results_loop self q lg data rs Hresp Hf), Hloop.
  split; [reflexivity|]. split; [exact Hlen | exact Hat].
Qed.

(** C9: for a decoded response with N well-formed results, the identifiers
    of one call are pairwise distinct.  The call returns all N documents or
    none, and all N when [TextNode] accepts them and every score converts
    to a float. *)
Theorem retrieve_identifiers_unique (self : RemoteRetriever) (q : QueryBundle)
    (lg : Log) data rs :
  responds_with (reply_of self q) data ->
  field data "results" = Some (PyList rs) ->
  forallb well_formed rs = true ->
  exists out,
    fst (_retrieve self q lg) = Ok out
    /\ NoDup (ids out)
    /\ (out = [] \/ length out = length rs)
    /\ (accepts_documents TextNode_accepts ->
        forallb score_in_range rs = true -> length out = length rs).
Proof.
  intros Hresp Hf Hwf.
  rewrite (retrieve_results_loop self q lg data rs Hresp Hf).
  destruct (convert_loop self 0 rs []) as [out|e] eqn:Hloop.
  - pose proof (convert_loop_ids self rs 0 [] out Hloop) as Hids.
    cbn [ids List.map app] in Hids. fold (ids out) in Hids.
    assert (Hlen : length out = length rs).
    { rewrite <- (List.length_map (fun n => id_ (node n)) out).
      fold (ids out). rewrite Hids. unfold ids.
      now rewrite List.length_map, length_imap. }
    exists out. split; [reflexivity|]. split; [|split; [now right | now intros _ _]].
    rewrite Hids. apply identifiers_distinct.
  - exists []. split; [reflexivity|]. split; [constructor|]. split; [now left|].
    intros Htn Hin.
    destruct (convert_loop_well_formed self rs Htn Hwf Hin 0 []) as (ns & Hns & _).
    rewrite Hns in Hloop. discriminate Hloop.
Qed.

(** C7: when converting one element of [results] raises, the call returns
    the empty list, whatever the other elements are. *)
Theorem retrieve_discards_batch (self : RemoteRetriever) (q : QueryBundle)
    (lg : Log) data rs i bad :
  responds_with (reply_of self q) data ->
  field data "results" = Some (PyList rs) ->
  rs !! i = Some bad ->
  (exists e, convert_result self i bad = Raise e) ->
  fst (_retrieve self q lg) = Ok [].
Proof.
  intros Hresp Hf Hi [e He].
  rewrite retrieve_handles, (body_results_list self q lg data rs Hresp Hf).
  cbn [fst].
  destruct (convert_loop_raises self rs 0 [] i bad e Hi He) as [e' ->].
  reflexivity.
Qed.

(** C8: a decoded response without a [results] key, or with an empty
    [results] array, gives the empty list; when the body is a JSON object
    the [try] block ends normally, so that only the two ordinary lines
    are logged and no error line. *)
Theorem retrieve_no_results (self : RemoteRetriever) (q : QueryBundle)
    (lg : Log) data :
  responds_with (reply_of self q) data ->
  field data "results" = None \/ field data "results" = Some (PyList []) ->
  fst (_retrieve self q lg) = Ok []
  /\ (is_object data = true ->
      _retrieve self q lg
      = (Ok [], lg ++ [debug_line self q] ++ [info_line self 0])).
Proof.
  intros Hresp Hf. split.
  - rewrite retrieve_handles.
    destruct Hf as [Hf|Hf].
    + destruct (fst (body_of self q lg)) as [out|e] eqn:Hb; [|reflexivity].
      destruct data as [| | | | | |d];
        try (destruct Hresp as (r & Hr & Hs & Hj);
             unfold Remote.body_of, Remote.retrieve_body, mbind, M_bind, lift, logger in Hb;
             cbn beta iota in Hb; fold (reply_of self q) in Hb;
             rewrite Hr, (raise_for_status_ok _ _ Hs), Hj in Hb; discriminate Hb).
      rewrite (body_results_absent self q lg d Hresp Hf) in Hb.
      cbn [fst] in Hb. now rewrite Hb.
    + now rewrite (body_results_list self q lg data [] Hresp Hf).
  - intros Hobj. destruct data as [| | | | | |d]; try discriminate Hobj.
    apply retrieve_normal. destruct Hf as [Hf|Hf].
    + exact (body_results_absent self q lg d Hresp Hf).
    + exact (body_results_list self q lg (PyDict d) [] Hresp Hf).
Qed.


End Retrieve.

End RetrieveFacts.

(** ** [ray_init] *)

Module RayFacts.
Import Py RayUtils.

Section RayInit.

Variable cfg : Config.
Variable getpass_getuser : gmap string string -> result string.
Variable os_makedirs : string -> gset string -> result (gset string).
Variable ray_connect : option string -> pyval -> result RayClient.

Abbreviation ray_init :=
  (RayUtils.ray_init cfg getpass_getuser os_makedirs ray_connect).

(** C6: with a client already in place, [ray_init] only logs the warning:
    the client, the environment and the directories are the ones it found,
    whatever [force_remote] is. *)
Theorem ray_init_existing_client (force_remote : bool) (w : World) (c : RayClient) :
  ray_client w = Some c ->
  exists w',
    ray_init force_remote w = (Ok tt, w')
    /\ ray_client w' = ray_client w
    /\ environ w' = environ w
    /\ directories w' = directories w
    /\ trace w' = trace w ++ [warning_line c].
Proof.
  intros Hc. unfold RayUtils.ray_init. rewrite Hc.
  eexists. split; [reflexivity|]. cbn. now rewrite Hc.
Qed.

(** C5: on a first call with [force_remote] and the remote endpoint
    configured, the only call that leaves the process is
    [ray.init] with that endpoint; the environment and the directories are
    left as they were. *)
Theorem ray_init_remote_endpoint (w : World) (endpoint : string) :
  ray_client w = None ->
  ray_remote_endpoint cfg = Some endpoint ->
  exists r w',
    ray_init true w = (r, w')
    /\ trace w' = trace w ++ [EvRayInit (Some endpoint) (logging_level cfg)]
    /\ environ w' = environ w
    /\ directories w' = directories w
    /\ match ray_connect (Some endpoint) (logging_level cfg) with
       | Ok c => r = Ok tt /\ ray_client w' = Some c
       | Raise e => r = Raise e /\ ray_client w' = None
       end.
Proof.
  intros Hc He. unfold RayUtils.ray_init. rewrite Hc, He.
  unfold mbind, M_bind, mret, M_ret, ray_dot_init. cbn beta iota.
  destruct (ray_connect (Some endpoint) (logging_level cfg)) as [c|e];
    do 2 eexists; (split; [reflexivity|]); cbn; auto.
Qed.

(** A second call after a successful first one changes nothing but the log. *)
Lemma ray_init_twice (a b : bool) (w w1 : World) :
  ray_init a w = (Ok tt, w1) -> ray_client w = None ->
  exists c, ray_client w1 = Some c
            /\ ray_init b w1 = (Ok tt, emit (warning_line c) w1).
Proof.
  intros H Hc. unfold RayUtils.ray_init in H. rewrite Hc in H.
  unfold mbind, M_bind, ray_dot_init in H. cbn beta iota in H.
  match type of H with
  | context [match ?m w with _ => _ end] => destruct (m w) as [[[]|e0] w0]
  end; [|discriminate H].
  destruct (ray_connect _ _) as [c|e]; [|discriminate H].
  injection H as <-. exists c. split; [reflexivity|].
  unfold RayUtils.ray_init. reflexivity.
Qed.

End RayInit.

End RayFacts.

(** ** The theorems at concrete inputs *)

Module Examples.
Import Py Remote RayUtils Samples.

Abbreviation run_retrieve post :=
  (_retrieve post sample_hash sample_TextNode_accepts sample_other_score
     a_retriever a_query []).

Lemma sample_accepts_documents : accepts_documents sample_TextNode_accepts.
Proof. intros s d i. reflexivity. Defined.

Lemma sample_responds (data : pyval) :
  responds_with (reply_of (always (ok_response data)) a_retriever a_query) data.
Proof. eexists. repeat split. Defined.

(** A refused connection gives the empty list. *)
Lemma retrieve_never_raises_witness :
  fst (run_retrieve (always connection_refused)) = Ok [].
Proof.
  apply (proj1 (proj2 (RetrieveFacts.retrieve_never_raises
                         (always connection_refused) sample_hash
                         sample_TextNode_accepts sample_other_score
                         a_retriever a_query []))).
  reflexivity.
Defined.

Lemma retrieve_maps_results_in_order_witness :
  exists out,
    fst (run_retrieve (always (ok_response two_results))) = Ok out
    /\ length out = 2
    /\ forall i r, [full_result; bare_result] !! i = Some r ->
        exists f, float_score r = Some f
                  /\ out !! i = Some (float_document sample_hash "dense_small" i r f).
Proof.
  apply (RetrieveFacts.retrieve_maps_results_in_order
           (always (ok_response two_results)) sample_hash
           sample_TextNode_accepts sample_other_score
           a_retriever a_query [] two_results [full_result; bare_result]).
  - exact sample_accepts_documents.
  - exact (sample_responds two_results).
  - reflexivity.
  - reflexivity.
  - reflexivity.
Defined.

(** C2 as it is stated fails on well-formed results: a score beyond the
    range of the floats is refused, so that the one result gives no
    document, and a score that no float represents is stored as the nearest
    float, which is not the score of the result. *)
Lemma retrieve_well_formed_scores :
  (well_formed huge_score_result = true
   /\ fst (run_retrieve (always (ok_response (results_of [huge_score_result])))) = Ok [])
  /\ (well_formed odd_score_result = true
      /\ spec_score odd_score_result = PyInt 9007199254740993
      /\ exists n,
           fst (run_retrieve (always (ok_response (results_of [odd_score_result]))))
           = Ok [n]
           /\ score n = PyFloat 9007199254740992).
Proof.
  split; [split; vm_compute; reflexivity|].
  split; [vm_compute; reflexivity|]. split; [vm_compute; reflexivity|].
  eexists. split; vm_compute; reflexivity.
Qed.

Lemma retrieve_identifiers_unique_witness :
  exists out,
    fst (run_retrieve (always (ok_response two_results))) = Ok out
    /\ NoDup (ids out)
    /\ (out = [] \/ length out = 2)
    /\ (accepts_documents sample_TextNode_accepts ->
        forallb score_in_range [full_result; bare_result] = true -> length out = 2).
Proof.
  apply (RetrieveFacts.retrieve_identifiers_unique
           (always (ok_response two_results)) sample_hash
           sample_TextNode_accepts sample_other_score
           a_retriever a_query [] two_results [full_result; bare_result]).
  - exact (sample_responds two_results).
  - reflexivity.
  - reflexivity.
Defined.

(** The second of three results is a number: the two good ones are lost. *)
Lemma retrieve_discards_batch_witness :
  fst (run_retrieve (always (ok_response broken_results))) = Ok [].
Proof.
  apply (RetrieveFacts.retrieve_discards_batch
           (always (ok_response broken_results)) sample_hash
           sample_TextNode_accepts sample_other_score
           a_retriever a_query [] broken_results
           [full_result; PyInt 3; bare_result] 1 (PyInt 3)).
  - exact (sample_responds broken_results).
  - reflexivity.
  - reflexivity.
  - eexists. reflexivity.
Defined.

Lemma retrieve_no_results_witness :
  fst (run_retrieve (always (ok_response no_results))) = Ok []
  /\ (is_object no_results = true ->
      run_retrieve (always (ok_response no_results))
      = (Ok [], [] ++ [debug_line a_retriever a_query] ++ [info_line a_retriever 0])).
Proof.
  apply (RetrieveFacts.retrieve_no_results
           (always (ok_response no_results)) sample_hash
           sample_TextNode_accepts sample_other_score
           a_retriever a_query [] no_results).
  - exact (sample_responds no_results).
  - left. reflexivity.
Defined.


Abbreviation run_ray_init cfg :=
  (ray_init cfg sample_getuser sample_makedirs sample_connect).

Lemma ray_init_existing_client_witness :
  exists w',
    run_ray_init sample_cfg true connected_world = (Ok tt, w')
    /\ ray_client w' = ray_client connected_world
    /\ environ w' = environ connected_world
    /\ directories w' = directories connected_world
    /\ trace w' = trace connected_world ++ [warning_line (mkRayClient "127.0.0.1:6379")].
Proof.
  apply (RayFacts.ray_init_existing_client sample_cfg sample_getuser
           sample_makedirs sample_connect true connected_world
           (mkRayClient "127.0.0.1:6379")).
  reflexivity.
Defined.

Lemma ray_init_remote_endpoint_witness :
  exists r w',
    run_ray_init sample_cfg true fresh_world = (r, w')
    /\ trace w' = trace fresh_world ++ [EvRayInit (Some "ray://head:10001") (PyStr "INFO")]
    /\ environ w' = environ fresh_world
    /\ directories w' = directories fresh_world
    /\ match sample_connect (Some "ray://head:10001") (PyStr "INFO") with
       | Ok c => r = Ok tt /\ ray_client w' = Some c
       | Raise e => r = Raise e /\ ray_client w' = None
       end.
Proof.
  apply (RayFacts.ray_init_remote_endpoint sample_cfg sample_getuser
           sample_makedirs sample_connect fresh_world "ray://head:10001").
  - reflexivity.
  - reflexivity.
Defined.

(** A configuration whose endpoint is None sends a first call with
    [force_remote] down the local branch. *)
Example ray_init_remote_without_endpoint_trace :
  let w' := snd (run_ray_init unset_cfg true fresh_world) in
  trace w' =
  [EvGetUser; EvMakedirs "/tmp/ray";
   EvLog (mkLog INFO "Using local ray client with temporary directory '/tmp/ray'");
   EvSetEnv "RAY_TMPDIR" "/tmp/ray"; EvRayInit None (PyStr "INFO")]
  /\ environ w' !! "RAY_TMPDIR" = Some "/tmp/ray".
Proof. split; reflexivity. Qed.

End Examples.

(** ** Further properties of the retriever *)

Module RetrieveMore.
Import Py Remote PyFacts Derived.

Lemma rstrip_last (c : ascii) (s : string) : last_char (rstrip c s) <> Some c.
Proof.
  induction s as [|a s IH]; cbn [rstrip]; [discriminate|].
  destruct (rstrip c s) as [|b r] eqn:E.
  - destruct (Ascii.eqb a c) eqn:Eac; [discriminate|].
    cbn. intros [= ->]. rewrite Ascii.eqb_refl in Eac. discriminate.
  - exact IH.
Qed.

Lemma rstrip_fill (c : ascii) (s : string) :
  exists n, s = rstrip c s +:+ fill c n.
Proof.
  induction s as [|a s [n IH]]; cbn [rstrip]; [exists 0; reflexivity|].
  destruct (rstrip c s) as [|b r] eqn:E.
  - destruct (Ascii.eqb a c) eqn:Eac.
    + apply Ascii.eqb_eq in Eac. subst a. exists (S n).
      exact (f_equal (String c) IH).
    + exists n. exact (f_equal (String a) IH).
  - exists n. exact (f_equal (String a) IH).
Qed.

(** X1: the constructor stores the URL without its trailing slashes, however
    many there are: what is stored does not end in a slash, and the
    argument is the stored URL followed by slashes only. *)
Theorem constructor_strips_slashes (u m : string) (k t : Z) (lg : Log) :
  exists self n,
    fst (__init__ u m k t lg) = Ok self
    /\ u = api_url self +:+ fill "/" n
    /\ last_char (api_url self) <> Some "/"%char.
Proof.
  destruct (rstrip_fill "/" u) as [n Hn].
  exists (mkRemoteRetriever (rstrip "/" u) m k t), n.
  split; [reflexivity|]. split; [exact Hn | apply rstrip_last].
Qed.

Section Conversion.

Variable requests_post :
  string -> pyval -> list (string * string) -> Z -> http_reply.
Variable py_hash_value : pyval -> Z.
Variable TextNode_accepts : pyval -> pyval -> string -> bool.
Variable NodeWithScore_other : pyval -> option float.

Abbreviation convert_result :=
  (Remote.convert_result py_hash_value TextNode_accepts NodeWithScore_other).
Abbreviation convert_loop :=
  (Remote.convert_loop py_hash_value TextNode_accepts NodeWithScore_other).
Abbreviation _retrieve :=
  (Remote._retrieve requests_post py_hash_value TextNode_accepts NodeWithScore_other).
Abbreviation reply_of := (Remote.reply_of requests_post).
Abbreviation body_of :=
  (Remote.body_of requests_post py_hash_value TextNode_accepts NodeWithScore_other).
Abbreviation spec_document :=
  (Remote.spec_document py_hash_value).

(** A loop that completes has converted every element, in order. *)
Lemma convert_loop_built (self : RemoteRetriever) (rs : list pyval) :
  forall idx acc out,
    convert_loop self idx rs acc = Ok out ->
    exists ns,
      out = acc ++ ns
      /\ length ns = length rs
      /\ forall j r, rs !! j = Some r ->
          exists n, ns !! j = Some n /\ convert_result self (idx + j) r = Ok n.
Proof.
  induction rs as [|r rs IH]; intros idx acc out; cbn [Remote.convert_loop].
  - intros [= <-]. exists []. rewrite app_nil_r. repeat split.
    intros j r Hj. discriminate Hj.
  - destruct (convert_result self idx r) as [n|e] eqn:En;
      cbn [mbind result_bind]; [|discriminate].
    intros H. destruct (IH _ _ _ H) as (ns & -> & Hlen & Hat).
    exists (n :: ns). split; [now rewrite <- app_assoc|]. split; [cbn; now rewrite Hlen|].
    intros [|j] x Hj.
    + injection Hj as <-. exists n. rewrite Nat.add_0_r. split; [reflexivity | exact En].
    + destruct (Hat j x Hj) as (m & Hm & Hc). exists m. split; [exact Hm|].
      now replace (idx + S j) with (S idx + j) by lia.
Qed.

(** A loop over strings stops at the first one: a str has no [get]. *)
Lemma convert_loop_strings (self : RemoteRetriever) (items : list pyval) idx acc out :
  Forall (fun v => is_str v = true) items ->
  convert_loop self idx items acc = Ok out -> out = acc.
Proof.
  intros Hs. destruct items as [|v items]; cbn [Remote.convert_loop].
  - now intros [= <-].
  - apply Forall_cons in Hs as [Hv _].
    destruct v; try discriminate Hv. cbn. discriminate.
Qed.

Lemma chars_are_str (s : string) : Forall (fun v => is_str v = true) (chars s).
Proof. induction s; cbn; constructor; auto. Qed.

Lemma keys_are_str (d : list (string * pyval)) :
  Forall (fun v => is_str v = true) (map (fun kv => PyStr (fst kv)) d).
Proof. induction d; cbn; constructor; auto. Qed.

Lemma raise_for_status_bad (url : string) (r : Response) :
  status_ok r = false -> exists e, raise_for_status url r = Raise e.
Proof.
  unfold status_ok, raise_for_status. intros Hs.
  destruct (400 <=? status_code r)%Z eqn:E1, (status_code r <? 500)%Z eqn:E2;
    cbn [andb]; eauto;
    destruct (500 <=? status_code r)%Z eqn:E3, (status_code r <? 600)%Z eqn:E4;
    cbn [andb]; eauto; cbn in Hs; try discriminate; lia.
Qed.

(** The result of the [try] block, without the log. *)
Lemma body_fst (self : RemoteRetriever) (q : QueryBundle) (lg : Log) :
  fst (body_of self q lg) =
  (response ← match reply_of self q with
              | PostRaises e => Raise e
              | PostReturns r => Ok r
              end;
   raise_for_status (url_of self) response;;
   data ← json response;
   results ← py_get data "results" (PyList []);
   n ← py_len results;
   items ← py_iter results;
   convert_loop self 0 items []).
Proof.
  unfold Remote.body_of, Remote.retrieve_body, mbind, M_bind, result_bind, lift, logger.
  cbn beta iota. fold (reply_of self q).
  destruct (reply_of self q) as [e|r]; [reflexivity|].
  destruct (raise_for_status (url_of self) r); [|reflexivity].
  destruct (json r) as [data|]; [|reflexivity].
  destruct (py_get data "results" (PyList [])) as [results|]; [|reflexivity].
  destruct (py_len results); [|reflexivity].
  destruct (py_iter results); reflexivity.
Qed.

Lemma retrieve_fst (self : RemoteRetriever) (q : QueryBundle) (lg : Log) :
  fst (_retrieve self q lg) =
  match fst (body_of self q lg) with
  | Ok out => Ok out
  | Raise _ => Ok []
  end.
Proof.
  unfold Remote._retrieve, try_except.
  fold (url_of self) (payload_of self q). fold (body_of self q).
  destruct (body_of self q lg) as [[out|e] lg']; cbn [fst]; [reflexivity|].
  destruct (is_RequestException e); reflexivity.
Qed.

(** Where a returned list comes from: it is empty, or the service answered
    with an array of results and every one of them was converted. *)
Lemma retrieve_origin (self : RemoteRetriever) (q : QueryBundle) (lg : Log) out :
  fst (_retrieve self q lg) = Ok out ->
  out = [] \/
  exists data rs,
    responds_with (reply_of self q) data
    /\ field data "results" = Some (PyList rs)
    /\ convert_loop self 0 rs [] = Ok out.
Proof.
  rewrite retrieve_fst, body_fst.
  destruct (reply_of self q) as [e|r] eqn:Hr; cbn [mbind result_bind];
    [intros [= <-]; now left|].
  destruct (status_ok r) eqn:Hs.
  2:{ destruct (raise_for_status_bad (url_of self) r Hs) as [e ->].
      cbn. intros [= <-]. now left. }
  rewrite (RetrieveFacts.raise_for_status_ok _ _ Hs). cbn [mbind result_bind].
  destruct (json r) as [data|e] eqn:Hj; cbn [mbind result_bind];
    [|intros [= <-]; now left].
  destruct data as [| | | | | |d]; cbn [py_get mbind result_bind];
    try (intros [= <-]; now left).
  destruct (dict_lookup d "results") as [v|] eqn:Hv; cbn [mbind result_bind].
  - destruct v as [| | | |s|rs|dd]; cbn [py_len py_iter mbind result_bind];
      try (intros [= <-]; now left).
    + destruct (convert_loop self 0 (chars s) []) as [o|] eqn:Hl;
        [|intros [= <-]; now left].
      apply convert_loop_strings in Hl; [|apply chars_are_str].
      subst o. intros [= <-]. now left.
    + destruct (convert_loop self 0 rs []) as [o|] eqn:Hl;
        [|intros [= <-]; now left].
      intros [= <-]. right. exists (PyDict d), rs.
      split; [exists r; auto|]. split; [exact Hv | exact Hl].
    + destruct (convert_loop self 0 (map (fun kv => PyStr (fst kv)) dd) []) as [o|] eqn:Hl;
        [|intros [= <-]; now left].
      apply convert_loop_strings in Hl; [|apply keys_are_str].
      subst o. intros [= <-]. now left.
  - cbn. intros [= <-]. now left.
Qed.

Lemma responds_with_unique (reply : http_reply) (d1 d2 : pyval) :
  responds_with reply d1 -> responds_with reply d2 -> d1 = d2.
Proof.
  intros (r1 & H1 & _ & J1) (r2 & H2 & _ & J2). congruence.
Qed.

Lemma retrieve_returns (self : RemoteRetriever) (q : QueryBundle) (lg : Log) :
  exists out, fst (_retrieve self q lg) = Ok out.
Proof.
  rewrite retrieve_fst. destruct (fst (body_of self q lg)); eauto.
Qed.

(** X2: when [results] is present but is no array (a mapping, a string, a
    number, null), the call returns the empty list. *)
Theorem retrieve_results_not_array (self : RemoteRetriever) (q : QueryBundle)
    (lg : Log) data v :
  responds_with (reply_of self q) data ->
  field data "results" = Some v ->
  is_array v = false ->
  fst (_retrieve self q lg) = Ok [].
Proof.
  intros Hresp Hf Hv. destruct (retrieve_returns self q lg) as [out Ho].
  destruct (retrieve_origin self q lg out Ho) as [->|(data' & rs & Hr' & Hf' & _)];
    [exact Ho|].
  rewrite (responds_with_unique _ _ _ Hr' Hresp) in Hf'.
  rewrite Hf in Hf'. injection Hf' as ->. discriminate Hv.
Qed.

(** X3: all or nothing.  For an array of results the call returns either
    the empty list or one document per element, in order, each with the
    node of the specification for that element and with the score as the
    score field keeps it; a proper part of the batch is never returned. *)
Theorem retrieve_all_or_nothing (self : RemoteRetriever) (q : QueryBundle)
    (lg : Log) data rs :
  responds_with (reply_of self q) data ->
  field data "results" = Some (PyList rs) ->
  exists out,
    fst (_retrieve self q lg) = Ok out
    /\ (out = []
        \/ (length out = length rs
            /\ forall i r, rs !! i = Some r ->
                exists n,
                  out !! i = Some n
                  /\ node n = node (spec_document (retrieval_method self) i r)
                  /\ score_field NodeWithScore_other (spec_score r) = Some (score n))).
Proof.
  intros Hresp Hf. destruct (retrieve_returns self q lg) as [out Ho].
  exists out. split; [exact Ho|].
  destruct (retrieve_origin self q lg out Ho) as [->|(data' & rs' & Hr' & Hf' & Hl)];
    [now left|].
  rewrite (responds_with_unique _ _ _ Hr' Hresp) in Hf'.
  rewrite Hf in Hf'. injection Hf' as <-. right.
  destruct (convert_loop_built self rs 0 [] out Hl) as (ns & -> & Hlen & Hat).
  cbn [app]. split; [exact Hlen|]. intros i r Hi.
  destruct (Hat i r Hi) as (n & Hn & Hc). exists n. split; [exact Hn|].
  exact (RetrieveFacts.convert_result_built _ _ _ self i r n Hc).
Qed.

(** X4: whatever the network answers, the identifiers of the returned
    documents are pairwise distinct, and the document at position [i]
    carries the method and [i] at the head of its identifier. *)
Theorem retrieve_identifiers (self : RemoteRetriever) (q : QueryBundle) (lg : Log) :
  exists out,
    fst (_retrieve self q lg) = Ok out
    /\ NoDup (ids out)
    /\ forall i n, out !! i = Some n ->
                   exists h, id_ (node n)
                             = retrieval_method self +:+ "_" +:+ str_of_nat i +:+ "_" +:+ h.
Proof.
  destruct (retrieve_returns self q lg) as [out Ho].
  exists out. split; [exact Ho|].
  destruct (retrieve_origin self q lg out Ho) as [->|(data & rs & _ & _ & Hl)].
  - split; [constructor | intros i n Hi; discriminate Hi].
  - pose proof (RetrieveFacts.convert_loop_ids _ _ _ self rs 0 [] out Hl) as Hids.
    cbn [ids List.map app] in Hids. fold (ids out) in Hids. split.
    + rewrite Hids. apply RetrieveFacts.identifiers_distinct.
    + intros i n Hi.
      assert (Hid : ids out !! i = Some (id_ (node n))).
      { unfold ids. rewrite list_lookup_fmap, Hi. reflexivity. }
      rewrite Hids in Hid. unfold ids in Hid.
      rewrite list_lookup_fmap, list_lookup_imap in Hid.
      destruct (rs !! i) as [r|]; [|discriminate Hid].
      injection Hid as <-. cbn. eauto.
Qed.

Lemma unusable_document_raises (self : RemoteRetriever) (i : nat) d doc :
  dict_lookup d "document" = Some doc ->
  is_object doc = false
  \/ (exists pc, field doc "page_content" = Some pc /\ unhashable pc = true) ->
  exists e, convert_result self i (PyDict d) = Raise e.
Proof.
  intros Hd H. unfold Remote.convert_result. cbn [py_get]. rewrite Hd.
  destruct (dict_lookup d "score"); cbn [mbind result_bind];
    (destruct H as [Hobj|(pc & Hpc & Hu)];
     [destruct doc; try discriminate Hobj; cbn; eauto
     |destruct doc as [| | | | | |dd]; try discriminate Hpc;
      cbn [field] in Hpc; cbn [py_get]; rewrite Hpc; cbn [mbind result_bind];
      destruct (dict_lookup dd "metadata"); cbn [mbind result_bind];
      destruct pc; try discriminate Hu; cbn; eauto]).
Qed.

(** X5: one element whose [document] is no mapping, or whose
    [page_content] is a list or a mapping (which [hash] refuses), costs the
    whole batch, whatever the library would accept. *)
Theorem retrieve_unusable_document (self : RemoteRetriever) (q : QueryBundle)
    (lg : Log) data rs i d doc :
  responds_with (reply_of self q) data ->
  field data "results" = Some (PyList rs) ->
  rs !! i = Some (PyDict d) ->
  dict_lookup d "document" = Some doc ->
  is_object doc = false
  \/ (exists pc, field doc "page_content" = Some pc /\ unhashable pc = true) ->
  fst (_retrieve self q lg) = Ok [].
Proof.
  intros Hresp Hf Hi Hd H.
  destruct (unusable_document_raises self i d doc Hd H) as [e He].
  rewrite retrieve_fst,
    (RetrieveFacts.body_results_list _ _ _ _ self q lg data rs Hresp Hf).
  cbn [fst].
  destruct (RetrieveFacts.convert_loop_raises _ _ _ self rs 0 [] i (PyDict d) e Hi He)
    as [e' ->].
  reflexivity.
Qed.

Lemma body_log (self : RemoteRetriever) (q : QueryBundle) (lg : Log) :
  exists pre,
    snd (body_of self q lg) = lg ++ debug_line self q :: pre
    /\ existsb is_error_line pre = false
    /\ length pre <= 1.
Proof.
  unfold Remote.body_of, Remote.retrieve_body, mbind, M_bind, lift, logger.
  cbn beta iota. fold (reply_of self q). fold (debug_line self q).
  destruct (reply_of self q) as [e|r]; [exists []; cbn; auto|].
  destruct (raise_for_status (url_of self) r); [|exists []; cbn; auto].
  destruct (json r) as [data|]; [|exists []; cbn; auto].
  destruct (py_get data "results" (PyList [])) as [results|]; [|exists []; cbn; auto].
  destruct (py_len results) as [n|]; [|exists []; cbn; auto].
  fold (info_line self n).
  destruct (py_iter results);
    exists [info_line self n]; cbn [snd]; rewrite <- app_assoc; cbn; auto.
Qed.

(** X6: the log tells a failure from an empty answer.  A call keeps the
    lines already logged, adds the debug line first and at most two more,
    and adds an ERROR line exactly when the [try] block raised. *)
Theorem retrieve_log (self : RemoteRetriever) (q : QueryBundle) (lg : Log) :
  exists added,
    snd (_retrieve self q lg) = lg ++ debug_line self q :: added
    /\ length added <= 2
    /\ (existsb is_error_line added = true
        <-> exists e, fst (body_of self q lg) = Raise e).
Proof.
  destruct (body_log self q lg) as (pre & Hlog & Hpre & Hlen).
  unfold Remote._retrieve, try_except.
  fold (url_of self) (payload_of self q). fold (body_of self q).
  destruct (body_of self q lg) as [[out|e] lg'] eqn:Hb; cbn [fst snd] in *.
  - exists pre. split; [exact Hlog|]. split; [lia|].
    rewrite Hpre. split; [discriminate | intros [e He]; discriminate He].
  - exists (pre ++ [mkLog ERROR
                      ((if is_RequestException e
                        then "Error calling retrieval API: "
                        else "Unexpected error in remote retrieval: ")
                       +:+ exn_msg e)]).
    split; [|split].
    + subst lg'. destruct (is_RequestException e);
        unfold mbind, M_bind, mret, M_ret, logger; cbn [snd];
        rewrite <- app_assoc; reflexivity.
    + rewrite length_app. cbn. lia.
    + rewrite existsb_app. cbn. rewrite orb_true_r. split; eauto.
Qed.

End Conversion.

Section Independence.

Variable post1 post2 :
  string -> pyval -> list (string * string) -> Z -> http_reply.
Variable py_hash_value : pyval -> Z.
Variable TextNode_accepts : pyval -> pyval -> string -> bool.
Variable NodeWithScore_other : pyval -> option float.

Abbreviation convert_loop' :=
  (Remote.convert_loop py_hash_value TextNode_accepts NodeWithScore_other).
Abbreviation retrieve_with post :=
  (Remote._retrieve post py_hash_value TextNode_accepts NodeWithScore_other).

Lemma convert_loop_method (self1 self2 : RemoteRetriever) (rs : list pyval) :
  retrieval_method self1 = retrieval_method self2 ->
  forall idx acc, convert_loop' self1 idx rs acc = convert_loop' self2 idx rs acc.
Proof.
  intros Hm. induction rs as [|r rs IH]; intros idx acc; cbn [Remote.convert_loop];
    [reflexivity|].
  assert (Hr : Remote.convert_result py_hash_value TextNode_accepts
                 NodeWithScore_other self1 idx r
               = Remote.convert_result py_hash_value TextNode_accepts
                   NodeWithScore_other self2 idx r).
  { unfold Remote.convert_result. now rewrite Hm. }
  rewrite Hr.
  destruct (Remote.convert_result _ _ _ self2 idx r); cbn [mbind result_bind];
    [apply IH | reflexivity].
Qed.

(** X7: the documents returned are a function of the method name and of
    the reply to the one request alone: the query, [top_k], the timeout,
    the URL and the log can differ without changing them.  In particular
    [top_k] is sent to the service and never applied to its answer. *)
Theorem retrieve_depends_on_reply (self1 self2 : RemoteRetriever)
    (q1 q2 : QueryBundle) (lg1 lg2 : Log) :
  retrieval_method self1 = retrieval_method self2 ->
  Remote.reply_of post1 self1 q1 = Remote.reply_of post2 self2 q2 ->
  fst (retrieve_with post1 self1 q1 lg1) = fst (retrieve_with post2 self2 q2 lg2).
Proof.
  intros Hm Hr. rewrite !retrieve_fst, !body_fst, Hr.
  destruct (Remote.reply_of post2 self2 q2) as [e|r]; [reflexivity|].
  cbn [mbind result_bind]. destruct (status_ok r) eqn:Hs.
  - rewrite !(RetrieveFacts.raise_for_status_ok _ _ Hs). cbn [mbind result_bind].
    destruct (json r) as [data|]; cbn [mbind result_bind]; [|reflexivity].
    destruct (py_get data "results" (PyList [])) as [results|];
      cbn [mbind result_bind]; [|reflexivity].
    destruct (py_len results); cbn [mbind result_bind]; [|reflexivity].
    destruct (py_iter results) as [items|]; cbn [mbind result_bind]; [|reflexivity].
    now rewrite (convert_loop_method self1 self2 items Hm).
  - destruct (raise_for_status_bad (url_of self1) r Hs) as [e1 ->].
    destruct (raise_for_status_bad (url_of self2) r Hs) as [e2 ->].
    reflexivity.
Qed.

End Independence.

End RetrieveMore.

(** ** Further properties of [ray_init] *)

Module RayMore.
Import Py RayUtils Derived.

Lemma length_append (a b : string) :
  String.length (a +:+ b) = String.length a + String.length b.
Proof.
  induction a as [|c a IH]; [reflexivity|].
  change (S (String.length (a +:+ b)) = S (String.length a + String.length b)).
  now rewrite IH.
Qed.

(** X8: the directory of the local branch is at most four characters longer
    than the base it is built from ([MATHEW_HOME], or [/tmp]). *)
Theorem local_tmpdir_length (env : gmap string string) :
  String.length (local_tmpdir env)
  <= String.length (match env !! "MATHEW_HOME" with
                    | Some v => v
                    | None => "/tmp"
                    end) + 4.
Proof.
  unfold local_tmpdir, path_join. cbn [starts_with_sep Ascii.eqb Bool.eqb].
  destruct (_ || _); rewrite !length_append; cbn; lia.
Qed.

Section RayInit.

Variable cfg : Config.
Variable getpass_getuser : gmap string string -> result string.
Variable os_makedirs : string -> gset string -> result (gset string).
Variable ray_connect : option string -> pyval -> result RayClient.

Abbreviation ray_init :=
  (RayUtils.ray_init cfg getpass_getuser os_makedirs ray_connect).

Ltac run_local Hc Hl :=
  unfold RayUtils.ray_init; rewrite Hc;
  match goal with
  | |- context [if ?b then ray_remote_endpoint cfg else None] =>
      replace (if b then ray_remote_endpoint cfg else None) with (@None string)
        by (destruct Hl as [Hl|Hl]; rewrite Hl;
            [reflexivity | destruct b; reflexivity])
  end;
  unfold mbind, M_bind, getuser, environ_get, makedirs, logger, environ_set,
    ray_dot_init;
  cbn beta iota; cbn [environ directories trace ray_client emit].

(** X9: a first call on the local branch that meets no failure creates the
    directory, then sets [RAY_TMPDIR] to it, then calls [ray.init] without an
    address; every other environment variable keeps its value. *)
Theorem ray_init_local (force_remote : bool) (w : World) user ds c :
  ray_client w = None ->
  force_remote = false \/ ray_remote_endpoint cfg = None ->
  getpass_getuser (environ w) = Ok user ->
  os_makedirs (local_tmpdir (environ w)) (directories w) = Ok ds ->
  ray_connect None (logging_level cfg) = Ok c ->
  exists w',
    ray_init force_remote w = (Ok tt, w')
    /\ ray_client w' = Some c
    /\ directories w' = ds
    /\ environ w' !! "RAY_TMPDIR" = Some (local_tmpdir (environ w))
    /\ (forall k, k <> "RAY_TMPDIR" -> environ w' !! k = environ w !! k)
    /\ trace w' = trace w ++ [EvGetUser;
                              EvMakedirs (local_tmpdir (environ w));
                              tmpdir_line (local_tmpdir (environ w));
                              EvSetEnv "RAY_TMPDIR" (local_tmpdir (environ w));
                              EvRayInit None (logging_level cfg)].
Proof.
  intros Hc Hl Hu Hm Hr. run_local Hc Hl.
  rewrite Hu. fold (local_tmpdir (environ w)). rewrite Hm.
  cbn [environ directories trace ray_client]. rewrite Hr.
  eexists. split; [reflexivity|]. cbn [environ directories trace ray_client].
  repeat split.
  - apply lookup_insert_eq.
  - intros k Hk. now apply lookup_insert_ne.
  - now rewrite <- !app_assoc.
Qed.

(** X10: when [getpass.getuser()] raises, the call raises the same
    exception before anything else is done, although the name is never
    used: no directory, no [RAY_TMPDIR], no [ray.init]. *)
Theorem ray_init_getuser_fails (force_remote : bool) (w : World) e :
  ray_client w = None ->
  force_remote = false \/ ray_remote_endpoint cfg = None ->
  getpass_getuser (environ w) = Raise e ->
  exists w',
    ray_init force_remote w = (Raise e, w')
    /\ ray_client w' = None
    /\ environ w' = environ w
    /\ directories w' = directories w
    /\ trace w' = trace w ++ [EvGetUser].
Proof.
  intros Hc Hl Hu. run_local Hc Hl. rewrite Hu.
  eexists. split; [reflexivity|]. cbn. auto.
Qed.

(** X11: when [os.makedirs] raises, the call raises the same exception:
    [RAY_TMPDIR] is not set and [ray.init] is not called. *)
Theorem ray_init_makedirs_fails (force_remote : bool) (w : World) user e :
  ray_client w = None ->
  force_remote = false \/ ray_remote_endpoint cfg = None ->
  getpass_getuser (environ w) = Ok user ->
  os_makedirs (local_tmpdir (environ w)) (directories w) = Raise e ->
  exists w',
    ray_init force_remote w = (Raise e, w')
    /\ ray_client w' = None
    /\ environ w' = environ w
    /\ directories w' = directories w
    /\ trace w' = trace w ++ [EvGetUser; EvMakedirs (local_tmpdir (environ w))].
Proof.
  intros Hc Hl Hu Hm. run_local Hc Hl.
  rewrite Hu. fold (local_tmpdir (environ w)). rewrite Hm.
  eexists. split; [reflexivity|]. cbn. repeat split; auto.
  now rewrite <- !app_assoc.
Qed.

(** X12: when [ray.init] raises on the local branch, nothing is undone: no
    client exists, but the directory stays and [RAY_TMPDIR] stays set. *)
Theorem ray_init_connect_fails (force_remote : bool) (w : World) user ds e :
  ray_client w = None ->
  force_remote = false \/ ray_remote_endpoint cfg = None ->
  getpass_getuser (environ w) = Ok user ->
  os_makedirs (local_tmpdir (environ w)) (directories w) = Ok ds ->
  ray_connect None (logging_level cfg) = Raise e ->
  exists w',
    ray_init force_remote w = (Raise e, w')
    /\ ray_client w' = None
    /\ directories w' = ds
    /\ environ w' !! "RAY_TMPDIR" = Some (local_tmpdir (environ w)).
Proof.
  intros Hc Hl Hu Hm Hr. run_local Hc Hl.
  rewrite Hu. fold (local_tmpdir (environ w)). rewrite Hm.
  cbn [environ directories trace ray_client]. rewrite Hr.
  eexists. split; [reflexivity|]. cbn [environ directories trace ray_client emit].
  split; [exact Hc|]. split; [reflexivity|]. apply lookup_insert_eq.
Qed.

Lemma ray_init_outcome (a : bool) (w w1 : World) r :
  ray_init a w = (r, w1) ->
  match r with
  | Ok _ => exists c, ray_client w1 = Some c
  | Raise _ => ray_client w = None /\ ray_client w1 = None
  end.
Proof.
  unfold RayUtils.ray_init. destruct (ray_client w) as [c0|] eqn:Hc.
  - intros [= <- <-]. exists c0. exact Hc.
  - unfold mbind, M_bind, ray_dot_init. cbn beta iota.
    match goal with
    | |- context [match ?m w with _ => _ end] =>
        assert (Hpre : ray_client (snd (m w)) = None);
        [|destruct (m w) as [[[]|e0] w0]]
    end.
    + destruct (if a then ray_remote_endpoint cfg else None); [exact Hc|].
      unfold mbind, M_bind, getuser, environ_get, makedirs, logger, environ_set.
      cbn beta iota. cbn [environ directories trace ray_client emit].
      destruct (getpass_getuser (environ w)); [|exact Hc].
      destruct (os_makedirs _ _); exact Hc.
    + cbn [snd] in Hpre. destruct (ray_connect _ _) as [c|e].
      * intros [= <- <-]. eauto.
      * intros [= <- <-]. cbn. auto.
    + cbn [snd] in Hpre. intros [= <- <-]. auto.
Qed.

(** X13: once a call has returned normally a client exists, and any later
    call, with either flag, returns normally and only adds the warning. *)
Theorem ray_init_then_again (a b : bool) (w w1 : World) :
  ray_init a w = (Ok tt, w1) ->
  exists c w2,
    ray_client w1 = Some c
    /\ ray_init b w1 = (Ok tt, w2)
    /\ ray_client w2 = Some c
    /\ environ w2 = environ w1
    /\ directories w2 = directories w1
    /\ trace w2 = trace w1 ++ [warning_line c].
Proof.
  intros H. destruct (ray_init_outcome a w w1 _ H) as [c Hc].
  exists c. eexists. split; [exact Hc|].
  unfold RayUtils.ray_init. rewrite Hc. split; [reflexivity|]. cbn. auto.
Qed.

(** X14: a call raises only when no client existed, and then none exists
    afterwards either, so that the call can be made again. *)
Theorem ray_init_raise_leaves_no_client (a : bool) (w w1 : World) e :
  ray_init a w = (Raise e, w1) ->
  ray_client w = None /\ ray_client w1 = None.
Proof.
  intros H. exact (ray_init_outcome a w w1 _ H).
Qed.

End RayInit.

(** X15: without [force_remote] the endpoint of the configuration is never
    read: two configurations with the same logging level give the same
    run. *)
Theorem ray_init_local_ignores_endpoint (cfg1 cfg2 : Config)
    getpass_getuser os_makedirs ray_connect (w : World) :
  logging_level cfg1 = logging_level cfg2 ->
  RayUtils.ray_init cfg1 getpass_getuser os_makedirs ray_connect false w
  = RayUtils.ray_init cfg2 getpass_getuser os_makedirs ray_connect false w.
Proof.
  intros Hl. unfold RayUtils.ray_init. now rewrite Hl.
Qed.

End RayMore.

(** ** The further properties at concrete inputs *)

Module MoreExamples.
Import Py Remote RayUtils Samples Derived.

Abbreviation retrieve_from post self q lg :=
  (_retrieve post sample_hash sample_TextNode_accepts sample_other_score
     self q lg).

Lemma responds (data : pyval) (self : RemoteRetriever) (q : QueryBundle) :
  responds_with (reply_of (always (ok_response data)) self q) data.
Proof. eexists. repeat split. Defined.

(** [results] is a mapping from positions to results: nothing is returned. *)
Lemma retrieve_results_not_array_witness :
  fst (retrieve_from (always (ok_response keyed_results)) a_retriever a_query []) = Ok [].
Proof.
  apply (RetrieveMore.retrieve_results_not_array
           (always (ok_response keyed_results)) sample_hash
           sample_TextNode_accepts sample_other_score
           a_retriever a_query [] keyed_results
           (PyDict [("0", full_result)])).
  - exact (responds keyed_results a_retriever a_query).
  - reflexivity.
  - reflexivity.
Defined.

Lemma retrieve_all_or_nothing_witness :
  exists out,
    fst (retrieve_from (always (ok_response broken_results)) a_retriever a_query []) = Ok out
    /\ (out = []
        \/ (length out = 3
            /\ forall i r, [full_result; PyInt 3; bare_result] !! i = Some r ->
                exists n,
                  out !! i = Some n
                  /\ node n = node (spec_document sample_hash "dense_small" i r)
                  /\ score_field sample_other_score (spec_score r) = Some (score n))).
Proof.
  apply (RetrieveMore.retrieve_all_or_nothing
           (always (ok_response broken_results)) sample_hash
           sample_TextNode_accepts sample_other_score
           a_retriever a_query [] broken_results
           [full_result; PyInt 3; bare_result]).
  - exact (responds broken_results a_retriever a_query).
  - reflexivity.
Defined.

(** The second result carries a list as its page content. *)
Lemma retrieve_unusable_document_witness :
  fst (retrieve_from (always (ok_response nested_content)) a_retriever a_query []) = Ok [].
Proof.
  apply (RetrieveMore.retrieve_unusable_document
           (always (ok_response nested_content)) sample_hash
           sample_TextNode_accepts sample_other_score
           a_retriever a_query [] nested_content
           [full_result;
            PyDict [("document", PyDict [("page_content", PyList [PyStr "a"])])]]
           1 [("document", PyDict [("page_content", PyList [PyStr "a"])])]
           (PyDict [("page_content", PyList [PyStr "a"])])).
  - exact (responds nested_content a_retriever a_query).
  - reflexivity.
  - reflexivity.
  - reflexivity.
  - right. exists (PyList [PyStr "a"]). split; reflexivity.
Defined.

(** Two retrievers of one method with different URLs, [top_k] and timeouts,
    asked different questions, given the same reply. *)
Lemma retrieve_depends_on_reply_witness :
  fst (retrieve_from (always (ok_response two_results)) a_retriever a_query [])
  = fst (retrieve_from (always (ok_response two_results)) b_retriever b_query
           [mkLog INFO "earlier line"]).
Proof.
  apply (RetrieveMore.retrieve_depends_on_reply
           (always (ok_response two_results)) (always (ok_response two_results))
           sample_hash sample_TextNode_accepts sample_other_score
           a_retriever b_retriever a_query b_query [] [mkLog INFO "earlier line"]).
  - reflexivity.
  - reflexivity.
Defined.

Abbreviation local_tmp := (local_tmpdir (environ home_world)).

Lemma ray_init_local_witness :
  exists w',
    ray_init sample_cfg sample_getuser sample_makedirs sample_connect false home_world
    = (Ok tt, w')
    /\ ray_client w' = Some (mkRayClient "127.0.0.1:6379")
    /\ directories w' = {[local_tmp]} ∪ directories home_world
    /\ environ w' !! "RAY_TMPDIR" = Some local_tmp
    /\ (forall k, k <> "RAY_TMPDIR" -> environ w' !! k = environ home_world !! k)
    /\ trace w' = trace home_world ++ [EvGetUser; EvMakedirs local_tmp;
                                       tmpdir_line local_tmp;
                                       EvSetEnv "RAY_TMPDIR" local_tmp;
                                       EvRayInit None (logging_level sample_cfg)].
Proof.
  apply (RayMore.ray_init_local sample_cfg sample_getuser sample_makedirs
           sample_connect false home_world "syftr"
           ({[local_tmp]} ∪ directories home_world) (mkRayClient "127.0.0.1:6379")).
  - reflexivity.
  - left. reflexivity.
  - reflexivity.
  - reflexivity.
  - reflexivity.
Defined.

Lemma ray_init_getuser_fails_witness :
  exists w',
    ray_init unset_cfg failing_getuser sample_makedirs sample_connect true fresh_world
    = (Raise (mkExn OSError "No username set in the environment"), w')
    /\ ray_client w' = None
    /\ environ w' = environ fresh_world
    /\ directories w' = directories fresh_world
    /\ trace w' = trace fresh_world ++ [EvGetUser].
Proof.
  apply (RayMore.ray_init_getuser_fails unset_cfg failing_getuser sample_makedirs
           sample_connect true fresh_world).
  - reflexivity.
  - right. reflexivity.
  - reflexivity.
Defined.

Lemma ray_init_makedirs_fails_witness :
  exists w',
    ray_init sample_cfg sample_getuser failing_makedirs sample_connect false fresh_world
    = (Raise (mkExn OSError "[Errno 13] Permission denied: '/tmp/ray'"), w')
    /\ ray_client w' = None
    /\ environ w' = environ fresh_world
    /\ directories w' = directories fresh_world
    /\ trace w' = trace fresh_world
                  ++ [EvGetUser; EvMakedirs (local_tmpdir (environ fresh_world))].
Proof.
  apply (RayMore.ray_init_makedirs_fails sample_cfg sample_getuser failing_makedirs
           sample_connect false fresh_world "syftr").
  - reflexivity.
  - left. reflexivity.
  - reflexivity.
  - reflexivity.
Defined.

Lemma ray_init_connect_fails_witness :
  exists w',
    ray_init sample_cfg sample_getuser sample_makedirs failing_connect false fresh_world
    = (Raise (mkExn ConnectionError "ray client connection timeout"), w')
    /\ ray_client w' = None
    /\ directories w' = {["/tmp/ray"]} ∪ directories fresh_world
    /\ environ w' !! "RAY_TMPDIR" = Some (local_tmpdir (environ fresh_world)).
Proof.
  apply (RayMore.ray_init_connect_fails sample_cfg sample_getuser sample_makedirs
           failing_connect false fresh_world "syftr").
  - reflexivity.
  - left. reflexivity.
  - reflexivity.
  - reflexivity.
  - reflexivity.
Defined.

Abbreviation after_first :=
  (snd (ray_init sample_cfg sample_getuser sample_makedirs sample_connect false
          fresh_world)).

Lemma ray_init_then_again_witness :
  exists c w2,
    ray_client after_first = Some c
    /\ ray_init sample_cfg sample_getuser sample_makedirs sample_connect true after_first
       = (Ok tt, w2)
    /\ ray_client w2 = Some c
    /\ environ w2 = environ after_first
    /\ directories w2 = directories after_first
    /\ trace w2 = trace after_first ++ [warning_line c].
Proof.
  apply (RayMore.ray_init_then_again sample_cfg sample_getuser sample_makedirs
           sample_connect false true fresh_world after_first).
  reflexivity.
Defined.

Abbreviation after_failure :=
  (snd (ray_init sample_cfg sample_getuser sample_makedirs failing_connect true
          fresh_world)).

Lemma ray_init_raise_leaves_no_client_witness :
  ray_client fresh_world = None /\ ray_client after_failure = None.
Proof.
  apply (RayMore.ray_init_raise_leaves_no_client sample_cfg sample_getuser
           sample_makedirs failing_connect true fresh_world after_failure
           (mkExn ConnectionError "ray client connection timeout")).
  reflexivity.
Defined.

Lemma ray_init_local_ignores_endpoint_witness :
  ray_init sample_cfg sample_getuser sample_makedirs sample_connect false fresh_world
  = ray_init unset_cfg sample_getuser sample_makedirs sample_connect false fresh_world.
Proof.
  apply (RayMore.ray_init_local_ignores_endpoint sample_cfg unset_cfg
           sample_getuser sample_makedirs sample_connect fresh_world).
  reflexivity.
Defined.

End MoreExamples.
